(** * team-left: the score dashboard (live view and totals view)

    A shallow embedding of the React components of [my-app]: the live
    chart ([Home]), and the three revisions of the totals page
    ([TotalScore]).  Hook state is a record, every setter call is an
    action, a fetch cycle is a function from what the network did to
    the list of setter calls it makes, and rendering is a function of
    the state.

    Numbers: [score] and [id] are integers of the API (exact in a JS
    double below 2^53), modelled in [Z]; [Math.abs] is [Z.abs].

    Time: the zone of the browser is one fixed offset (a zone without
    daylight saving time, such as Asia/Tokyo); every statement about a
    timestamp read in the browser's zone is a statement about fixed
    offsets. *)

From Stdlib Require Import ZArith List Bool String Lia.
From Stdlib Require Import Sorting.Sorted Sorting.Permutation.
Import ListNotations.

Local Open Scope Z_scope.

(** ** The JavaScript runtime the components call into *)

Module JS.

(** A timestamp string without offset ("2024-10-05T12:34:56.789",
    "2024/10/05 21:34:56") is represented by the reading it spells:
    milliseconds since 1970-01-01T00:00:00.000 on the same wall
    clock.  A date string "YYYY-MM-DD" is the number of its day,
    counted from 1970-01-01; the dates meant are those with a year of
    four digits, which [new Date] parses (for a later year, which the
    date input can hold, the code gets NaN: outside this model). *)
Definition WallClock := Z.
Definition Day := Z.

(** The value of [getTime()]: [None] is NaN (Invalid Date). *)
Definition Time := option Z.

Definition msPerSecond : Z := 1000.
Definition msPerMinute : Z := 60000.
Definition msPerHour : Z := 3600000.
Definition msPerDay : Z := 86400000.

(** Days from 1970-01-01 of a proleptic Gregorian date; used to
    write dates down in examples. *)
Definition days_from_civil (y m d : Z) : Day :=
  let y' := if m <=? 2 then y - 1 else y in
  let era := y' / 400 in
  let yoe := y' - era * 400 in
  let mp := (m + 9) mod 12 in
  let doy := (153 * mp + 2) / 5 + d - 1 in
  let doe := yoe * 365 + yoe / 4 - yoe / 100 + doy in
  era * 146097 + doe - 719468.

Definition wall (y m d hh mm ss : Z) : WallClock :=
  days_from_civil y m d * msPerDay
  + hh * msPerHour + mm * msPerMinute + ss * msPerSecond.

(** An offset in minutes east of UTC.  [tz] below is the zone of the
    browser, taken as one fixed offset: exact for a zone without
    daylight saving time, such as Asia/Tokyo (where the dashboard is
    used) or UTC.  In a zone with daylight saving time the offset
    depends on the reading, and a reading in the skipped hour is moved:
    such zones are outside this model, and what is proved of a local
    reading is proved of fixed offsets only. *)
Definition jst : Z := 540.

(** [new Date(s).getTime()] for a well-formed date-time string [s]
    without offset: read in the browser's zone, at the fixed offset
    [tz]. *)
Definition Date_local (tz : Z) (s : WallClock) : Time :=
  Some (s - tz * msPerMinute).

(** [new Date(`${s}Z`)]: the same string read as UTC. *)
Definition Date_utc (s : WallClock) : Z := s.

(** The time of day "HH:mm:ss" of an ISO string: 00..23, 00..59,
    00..59, and 24:00:00 for the end of the day. *)
Definition valid_time (hh mm ss : Z) : bool :=
  ((0 <=? hh) && (hh <=? 23) && (0 <=? mm) && (mm <=? 59)
   && (0 <=? ss) && (ss <=? 59))
  || ((hh =? 24) && (mm =? 0) && (ss =? 0)).

(** [new Date(`${d}T${String(hh).padStart(2, "0")}:mm:ss${off}`).getTime()]
    where [off] is an explicit offset ("+09:00" is [Some 540]) or
    nothing, and then the browser's zone applies, at the fixed offset
    [tz]; [d] is a date with a year of four digits. *)
Definition Date_iso (tz : Z) (d : Day) (hh mm ss : Z) (off : option Z)
  : Time :=
  if valid_time hh mm ss then
    Some (d * msPerDay + hh * msPerHour + mm * msPerMinute
          + ss * msPerSecond
          - match off with Some o => o | None => tz end * msPerMinute)
  else None.

(** [Intl.DateTimeFormat("ja-JP", {timeZone: "Asia/Tokyo", ...})]
    down to the second: the wall clock of Tokyo at an instant, the
    milliseconds dropped. *)
Definition format_Tokyo (t : Z) : WallClock :=
  (t + jst * msPerMinute) / msPerSecond * msPerSecond.

(** [a >= b] and [a <= b] on numbers: false when either is NaN. *)
Definition ge (a b : Time) : bool :=
  match a, b with Some x, Some y => y <=? x | _, _ => false end.
Definition le (a b : Time) : bool :=
  match a, b with Some x, Some y => x <=? y | _, _ => false end.

(** [a - b] of a comparator; both operands are valid dates there. *)
Definition minus (a b : Time) : Z :=
  match a, b with Some x, Some y => x - y | _, _ => 0 end.

(** [Array.prototype.sort(cmp)]: stable; an element goes before the
    first one it does not compare greater than. *)
Section Sort.
Context {A : Type} (cmp : A -> A -> Z).

Fixpoint insert (x : A) (l : list A) : list A :=
  match l with
  | [] => [x]
  | y :: l' => if cmp x y <=? 0 then x :: l else y :: insert x l'
  end.

Definition Array_sort (l : list A) : list A := fold_right insert [] l.
End Sort.

(** What a [catch] clause can receive. *)
Inductive Thrown : Type :=
| ErrorObject (message : string)
| OtherValue.

(** [l.slice(-n)]: a copy of the last [n] elements, all of [l] when it
    is shorter. *)
Definition Array_slice_last {A : Type} (n : nat) (l : list A) : list A :=
  skipn (List.length l - n) l.

(** [new Date(now).toISOString().slice(0, 10)]: the date of the instant
    [now] in UTC (years 0000 to 9999). *)
Definition toISOString_date (now : Z) : Day := now / msPerDay.

End JS.

(** ** The API *)

Record ScoreData : Type := mkScoreData {
  created_at : JS.WallClock;
  id : Z;
  score : Z
}.

Record ApiResponse : Type := mkApiResponse {
  data : list ScoreData;
  status : string
}.

(** What one [fetch] of the endpoint does: the promise rejects, or
    resolves to a response whose body decodes or does not. *)
Inductive Body : Type :=
| Json (result : ApiResponse)
| JsonThrows (e : JS.Thrown).

Record Response : Type := mkResponse {
  ok : bool;
  json : Body
}.

Inductive Fetched : Type :=
| Resolved (response : Response)
| Rejected (e : JS.Thrown).

Definition msgFetchFailed : string := "データの取得に失敗しました".
Definition msgBadStatus : string := "APIからの応答が正常ではありません".
Definition msgUnknown : string := "不明なエラーが発生しました".

(** ** Setter calls of an async function with try / catch / finally *)

Section Effects.
Context {Action : Type}.

(** The setter calls made so far, and how the block completed. *)
Definition Block (A : Type) : Type := list Action * (A + JS.Thrown).

Definition ret {A} (a : A) : Block A := ([], inl a).
Definition throw {A} (e : JS.Thrown) : Block A := ([], inr e).
Definition call (a : Action) : Block unit := ([a], inl tt).

Definition bind {A B} (m : Block A) (k : A -> Block B) : Block B :=
  match m with
  | (acts, inl a) => let (acts', r) := k a in (acts ++ acts', r)
  | (acts, inr e) => (acts, inr e)
  end.

Definition try_catch_finally (body : Block unit)
    (handler : JS.Thrown -> list Action) (final : list Action)
  : list Action :=
  match body with
  | (acts, inl _) => acts ++ final
  | (acts, inr e) => acts ++ handler e ++ final
  end.

(** [await fetch(url)] and [await response.json()]. *)
Definition await_fetch (f : Fetched) : Block Response :=
  match f with
  | Resolved r => ret r
  | Rejected e => throw e
  end.

Definition await_json (r : Response) : Block ApiResponse :=
  match json r with
  | Json result => ret result
  | JsonThrows e => throw e
  end.
End Effects.

Notation "x <- m ;; k" := (bind m (fun x => k))
  (at level 61, m at next level, right associativity).
Notation "m ;;; k" := (bind m (fun _ => k))
  (at level 61, right associativity).

(** [err instanceof Error ? err.message : "..."] *)
Definition errorMessage (err : JS.Thrown) : string :=
  match err with
  | JS.ErrorObject message => message
  | JS.OtherValue => msgUnknown
  end.

(** What a component returns from its render. *)
Inductive View (A : Type) : Type :=
| LoadingView
| ErrorView (msg : string)
| MainView (content : A).
Arguments LoadingView {A}.
Arguments ErrorView {A} msg.
Arguments MainView {A} content.

(** [if (error)]: a string is truthy unless it is empty. *)
Definition truthy (s : string) : bool := negb (String.eqb s "").

(** ** The totals reducer, written alike in the three totals pages

    [fun_] stands for the field [fun]. *)
Record Totals : Type := mkTotals {
  fun_ : Z;
  tired : Z
}.

Definition reduceTotals (items : list ScoreData) : Totals :=
  fold_left
    (fun acc item =>
       if 0 <=? score item
       then {| fun_ := fun_ acc + score item; tired := tired acc |}
       else {| fun_ := fun_ acc; tired := tired acc + Z.abs (score item) |})
    items
    {| fun_ := 0; tired := 0 |}.

(** ** The live view: [Home]

    [fetchData], the hook state and the render guards are the same
    text in the plain chart and in the chart split into two series;
    the split adds [funData] and [tiredData]. *)
Module Home.

Record State : Type := mkState {
  scoreData : list ScoreData;
  loading : bool;
  error : option string
}.

Definition initial : State :=
  {| scoreData := []; loading := true; error := None |}.

Inductive Action : Type :=
| SetScoreData (v : list ScoreData)
| SetLoading (v : bool)
| SetError (v : option string).

Definition apply (st : State) (a : Action) : State :=
  match a with
  | SetScoreData v =>
      {| scoreData := v; loading := loading st; error := error st |}
  | SetLoading v =>
      {| scoreData := scoreData st; loading := v; error := error st |}
  | SetError v =>
      {| scoreData := scoreData st; loading := loading st; error := v |}
  end.

(** [(a, b) => new Date(a.created_at).getTime()
              - new Date(b.created_at).getTime()] *)
Definition byCreatedAt (tz : Z) (a b : ScoreData) : Z :=
  JS.minus (JS.Date_local tz (created_at a))
           (JS.Date_local tz (created_at b)).

Definition fetchData (tz : Z) (f : Fetched) : list Action :=
  try_catch_finally
    (response <- await_fetch f ;;
     if negb (ok response)
     then throw (JS.ErrorObject msgFetchFailed)
     else
       result <- await_json response ;;
       if String.eqb (status result) "OK"
       then call (SetScoreData (JS.Array_sort (byCreatedAt tz) (data result)))
       else throw (JS.ErrorObject msgBadStatus))
    (fun err => [SetError (Some (errorMessage err))])
    [SetLoading false].

(** One fetch cycle settling: its setter calls, in order. *)
Definition fetchCycle (tz : Z) (st : State) (f : Fetched) : State :=
  fold_left apply (fetchData tz f) st.

(** The first fetch and the ones the interval timer starts, in the
    order they settle. *)
Definition run (tz : Z) (st : State) (fs : list Fetched) : State :=
  fold_left (fetchCycle tz) fs st.

Definition funData (scoreData : list ScoreData) : list (option Z) :=
  map (fun item => if 0 <? score item then Some (score item) else None)
      scoreData.

Definition tiredData (scoreData : list ScoreData) : list (option Z) :=
  map (fun item => if score item <? 0 then Some (Z.abs (score item)) else None)
      scoreData.

(** The chart and the latest records are drawn from [scoreData]. *)
Definition render (st : State) : View (list ScoreData) :=
  if loading st && (List.length (scoreData st) =? 0)%nat then LoadingView
  else match error st with
       | Some msg => if truthy msg then ErrorView msg
                     else MainView (scoreData st)
       | None => MainView (scoreData st)
       end.

Definition formatDateToJST (dateString : JS.WallClock) : JS.WallClock :=
  JS.format_Tokyo (JS.Date_utc dateString).

(** [chartData] without its colours: the labels and the two series. *)
Record ChartData : Type := mkChartData {
  labels : list JS.WallClock;
  datasets : list (list (option Z))
}.

Definition chartData (scoreData : list ScoreData) : ChartData :=
  {| labels := map (fun item => formatDateToJST (created_at item)) scoreData;
     datasets := [funData scoreData; tiredData scoreData] |}.

(** [scoreData.slice(-5).reverse()]: the records of the cards under
    the chart. *)
Definition latest (scoreData : list ScoreData) : list ScoreData :=
  rev (JS.Array_slice_last 5 scoreData).

End Home.

(** ** The totals page without a filter *)
Module TotalPlain.

Record State : Type := mkState {
  scoreData : list ScoreData;
  loading : bool;
  error : option string
}.

Definition initial : State :=
  {| scoreData := []; loading := true; error := None |}.

Inductive Action : Type :=
| SetScoreData (v : list ScoreData)
| SetLoading (v : bool)
| SetError (v : option string).

Definition apply (st : State) (a : Action) : State :=
  match a with
  | SetScoreData v =>
      {| scoreData := v; loading := loading st; error := error st |}
  | SetLoading v =>
      {| scoreData := scoreData st; loading := v; error := error st |}
  | SetError v =>
      {| scoreData := scoreData st; loading := loading st; error := v |}
  end.

Definition fetchData (f : Fetched) : list Action :=
  try_catch_finally
    (response <- await_fetch f ;;
     if negb (ok response)
     then throw (JS.ErrorObject msgFetchFailed)
     else
       result <- await_json response ;;
       if String.eqb (status result) "OK"
       then call (SetScoreData (data result))
       else throw (JS.ErrorObject msgBadStatus))
    (fun err => [SetError (Some (errorMessage err))])
    [SetLoading false].

Definition fetchCycle (st : State) (f : Fetched) : State :=
  fold_left apply (fetchData f) st.

Definition totalData (st : State) : Totals := reduceTotals (scoreData st).

Definition render (st : State) : View Totals :=
  if loading st && (List.length (scoreData st) =? 0)%nat then LoadingView
  else match error st with
       | Some msg => if truthy msg then ErrorView msg
                     else MainView (totalData st)
       | None => MainView (totalData st)
       end.

(** [data: [totalData.fun, totalData.tired]] of [pieChartData]. *)
Definition pieData (st : State) : list Z :=
  [fun_ (totalData st); tired (totalData st)].

End TotalPlain.

(** ** The totals page with a filter button ([app/total/page.tsx]) *)
Module TotalPage.

Record State : Type := mkState {
  scoreData : list ScoreData;
  filteredData : list ScoreData;
  loading : bool;
  error : option string;
  startDate : option JS.Day;     (* [None] is the empty string *)
  endDate : option JS.Day;
  timeRange : Z * Z
}.

(** [today] is [new Date().toISOString().slice(0, 10)]. *)
Definition initial (today : JS.Day) : State :=
  {| scoreData := []; filteredData := []; loading := true; error := None;
     startDate := Some today; endDate := Some today; timeRange := (0, 23) |}.

Inductive Action : Type :=
| SetScoreData (v : list ScoreData)
| SetFilteredData (v : list ScoreData)
| SetLoading (v : bool)
| SetError (v : option string)
| SetStartDate (v : option JS.Day)
| SetEndDate (v : option JS.Day)
| SetTimeRange (v : Z * Z).

Definition apply (st : State) (a : Action) : State :=
  match a with
  | SetScoreData v =>
      mkState v (filteredData st) (loading st) (error st)
              (startDate st) (endDate st) (timeRange st)
  | SetFilteredData v =>
      mkState (scoreData st) v (loading st) (error st)
              (startDate st) (endDate st) (timeRange st)
  | SetLoading v =>
      mkState (scoreData st) (filteredData st) v (error st)
              (startDate st) (endDate st) (timeRange st)
  | SetError v =>
      mkState (scoreData st) (filteredData st) (loading st) v
              (startDate st) (endDate st) (timeRange st)
  | SetStartDate v =>
      mkState (scoreData st) (filteredData st) (loading st) (error st)
              v (endDate st) (timeRange st)
  | SetEndDate v =>
      mkState (scoreData st) (filteredData st) (loading st) (error st)
              (startDate st) v (timeRange st)
  | SetTimeRange v =>
      mkState (scoreData st) (filteredData st) (loading st) (error st)
              (startDate st) (endDate st) v
  end.

Definition fetchData (f : Fetched) : list Action :=
  try_catch_finally
    (response <- await_fetch f ;;
     if negb (ok response)
     then throw (JS.ErrorObject msgFetchFailed)
     else
       result <- await_json response ;;
       if String.eqb (status result) "OK"
       then call (SetScoreData (data result)) ;;;
            call (SetFilteredData (data result))
       else throw (JS.ErrorObject msgBadStatus))
    (fun err => [SetError (Some (errorMessage err))])
    [SetLoading false].

(** The callback given to [scoreData.filter]: all three strings are
    read without an offset; the end is "HH:59". *)
Definition inRange (tz : Z) (startDate endDate : JS.Day) (timeRange : Z * Z)
    (item : ScoreData) : bool :=
  let createdAt := JS.Date_local tz (created_at item) in
  let start := JS.Date_iso tz startDate (fst timeRange) 0 0 None in
  let end_ := JS.Date_iso tz endDate (snd timeRange) 59 0 None in
  JS.ge createdAt start && JS.le createdAt end_.

Definition applyDateFilter (tz : Z) (st : State) : list Action :=
  match startDate st, endDate st with
  | Some sd, Some ed =>
      [SetFilteredData (filter (inRange tz sd ed (timeRange st)) (scoreData st))]
  | _, _ => []
  end.

Inductive Event : Type :=
| FetchSettled (f : Fetched)
| ChangeStartDate (v : option JS.Day)
| ChangeEndDate (v : option JS.Day)
| ChangeStartHour (v : Z)
| ChangeEndHour (v : Z)
| ClickApply.

Definition handle (tz : Z) (st : State) (ev : Event) : list Action :=
  match ev with
  | FetchSettled f => fetchData f
  | ChangeStartDate v => [SetStartDate v]
  | ChangeEndDate v => [SetEndDate v]
  | ChangeStartHour v => [SetTimeRange (v, snd (timeRange st))]
  | ChangeEndHour v => [SetTimeRange (fst (timeRange st), v)]
  | ClickApply => applyDateFilter tz st
  end.

Definition step (tz : Z) (st : State) (ev : Event) : State :=
  fold_left apply (handle tz st ev) st.

Definition run (tz : Z) (st : State) (evs : list Event) : State :=
  fold_left (step tz) evs st.

Definition totalData (st : State) : Totals := reduceTotals (filteredData st).

Definition render (st : State) : View Totals :=
  if loading st && (List.length (scoreData st) =? 0)%nat then LoadingView
  else match error st with
       | Some msg => if truthy msg then ErrorView msg
                     else MainView (totalData st)
       | None => MainView (totalData st)
       end.

(** [data: [totalData.fun, totalData.tired]] of [pieChartData]. *)
Definition pieData (st : State) : list Z :=
  [fun_ (totalData st); tired (totalData st)].

End TotalPage.

(** ** The totals page that filters on every change *)
Module TotalReactive.

Record State : Type := mkState {
  scoreData : list ScoreData;
  filteredData : list ScoreData;
  loading : bool;
  error : option string;
  startDate : option JS.Day;
  endDate : option JS.Day;
  startTime : Z;
  endTime : Z
}.

Definition initial (today : JS.Day) : State :=
  {| scoreData := []; filteredData := []; loading := true; error := None;
     startDate := Some today; endDate := Some today;
     startTime := 0; endTime := 23 |}.

Inductive Action : Type :=
| SetScoreData (v : list ScoreData)
| SetFilteredData (v : list ScoreData)
| SetLoading (v : bool)
| SetError (v : option string)
| SetStartDate (v : option JS.Day)
| SetEndDate (v : option JS.Day)
| SetStartTime (v : Z)
| SetEndTime (v : Z).

Definition apply (st : State) (a : Action) : State :=
  match a with
  | SetScoreData v =>
      mkState v (filteredData st) (loading st) (error st)
              (startDate st) (endDate st) (startTime st) (endTime st)
  | SetFilteredData v =>
      mkState (scoreData st) v (loading st) (error st)
              (startDate st) (endDate st) (startTime st) (endTime st)
  | SetLoading v =>
      mkState (scoreData st) (filteredData st) v (error st)
              (startDate st) (endDate st) (startTime st) (endTime st)
  | SetError v =>
      mkState (scoreData st) (filteredData st) (loading st) v
              (startDate st) (endDate st) (startTime st) (endTime st)
  | SetStartDate v =>
      mkState (scoreData st) (filteredData st) (loading st) (error st)
              v (endDate st) (startTime st) (endTime st)
  | SetEndDate v =>
      mkState (scoreData st) (filteredData st) (loading st) (error st)
              (startDate st) v (startTime st) (endTime st)
  | SetStartTime v =>
      mkState (scoreData st) (filteredData st) (loading st) (error st)
              (startDate st) (endDate st) v (endTime st)
  | SetEndTime v =>
      mkState (scoreData st) (filteredData st) (loading st) (error st)
              (startDate st) (endDate st) (startTime st) v
  end.

Definition fetchData (f : Fetched) : list Action :=
  try_catch_finally
    (response <- await_fetch f ;;
     if negb (ok response)
     then throw (JS.ErrorObject msgFetchFailed)
     else
       result <- await_json response ;;
       if String.eqb (status result) "OK"
       then call (SetScoreData (data result)) ;;;
            call (SetFilteredData (data result))
       else throw (JS.ErrorObject msgBadStatus))
    (fun err => [SetError (Some (errorMessage err))])
    [SetLoading false].

Definition formatDateToJST (dateString : JS.WallClock) : JS.WallClock :=
  JS.format_Tokyo (JS.Date_utc dateString).

(** The callback given to [scoreData.filter]: the record's Tokyo wall
    clock, read back in the browser's zone, against two instants
    written with "+09:00". *)
Definition inRange (tz : Z) (startDate endDate : JS.Day) (startTime endTime : Z)
    (item : ScoreData) : bool :=
  let createdAt := JS.Date_local tz (formatDateToJST (created_at item)) in
  let start := JS.Date_iso tz startDate startTime 0 0 (Some JS.jst) in
  let end_ := JS.Date_iso tz endDate endTime 59 59 (Some JS.jst) in
  JS.ge createdAt start && JS.le createdAt end_.

(** The body of the filtering [useEffect]. *)
Definition filterEffect (tz : Z) (st : State) : list Action :=
  match startDate st, endDate st with
  | Some sd, Some ed =>
      [SetFilteredData
         (filter (inRange tz sd ed (startTime st) (endTime st)) (scoreData st))]
  | _, _ => []
  end.

Inductive Event : Type :=
| FetchSettled (f : Fetched)
| ChangeStartDate (v : option JS.Day)
| ChangeEndDate (v : option JS.Day)
| ChangeStartTime (v : Z)
| ChangeEndTime (v : Z).

Definition handle (ev : Event) : list Action :=
  match ev with
  | FetchSettled f => fetchData f
  | ChangeStartDate v => [SetStartDate v]
  | ChangeEndDate v => [SetEndDate v]
  | ChangeStartTime v => [SetStartTime v]
  | ChangeEndTime v => [SetEndTime v]
  end.

Definition option_eqb (a b : option Z) : bool :=
  match a, b with
  | Some x, Some y => x =? y
  | None, None => true
  | _, _ => false
  end.

(** Whether one of [[startDate, endDate, startTime, endTime, scoreData]]
    changed: a number or string by value, the array by identity (every
    [setScoreData] stores a freshly decoded array). *)
Definition depsChanged (st st' : State) (acts : list Action) : bool :=
  negb (option_eqb (startDate st) (startDate st'))
  || negb (option_eqb (endDate st) (endDate st'))
  || negb (startTime st =? startTime st')
  || negb (endTime st =? endTime st')
  || existsb (fun a => match a with SetScoreData _ => true | _ => false end)
             acts.

(** An event, the render it causes, and the effect after that render. *)
Definition step (tz : Z) (st : State) (ev : Event) : State :=
  let acts := handle ev in
  let st' := fold_left apply acts st in
  if depsChanged st st' acts
  then fold_left apply (filterEffect tz st') st'
  else st'.

(** Mounting runs every effect once. *)
Definition mount (tz : Z) (today : JS.Day) : State :=
  fold_left apply (filterEffect tz (initial today)) (initial today).

Definition run (tz : Z) (st : State) (evs : list Event) : State :=
  fold_left (step tz) evs st.

Definition totalData (st : State) : Totals := reduceTotals (filteredData st).

Definition render (st : State) : View Totals :=
  if loading st && (List.length (scoreData st) =? 0)%nat then LoadingView
  else match error st with
       | Some msg => if truthy msg then ErrorView msg
                     else MainView (totalData st)
       | None => MainView (totalData st)
       end.

(** [data: [totalData.fun, totalData.tired]] of [pieChartData]. *)
Definition pieData (st : State) : list Z :=
  [fun_ (totalData st); tired (totalData st)].

End TotalReactive.

(** ** Notions of the specification *)

Fixpoint Zsum (l : list Z) : Z :=
  match l with
  | [] => 0
  | x :: l' => x + Zsum l'
  end.

(** The scores of the records with [score >= 0], and the magnitudes
    of those with [score < 0]. *)
Definition funScores (items : list ScoreData) : list Z :=
  map score (filter (fun item => 0 <=? score item) items).

Definition tiredScores (items : list ScoreData) : list Z :=
  map (fun item => Z.abs (score item))
      (filter (fun item => score item <? 0) items).

(** The instant of a record: its timestamp read as UTC. *)
Definition instant (item : ScoreData) : Z := JS.Date_utc (created_at item).

(** Ascending by instant. *)
Definition ascending (items : list ScoreData) : Prop :=
  StronglySorted (fun a b => instant a <= instant b) items.

(** The instants HH:00:00 and HH:59:59 of a day at +09:00. *)
Definition startInstant (d : JS.Day) (hh : Z) : Z :=
  d * JS.msPerDay + hh * JS.msPerHour - JS.jst * JS.msPerMinute.

Definition endInstant (d : JS.Day) (hh : Z) : Z :=
  d * JS.msPerDay + hh * JS.msPerHour + 59 * JS.msPerMinute
  + 59 * JS.msPerSecond - JS.jst * JS.msPerMinute.

(** The success condition of the specification: the transport reports
    success and the decoded payload says "OK". *)
Definition succeeds (f : Fetched) : bool :=
  match f with
  | Resolved r =>
      ok r && match json r with
              | Json result => String.eqb (status result) "OK"
              | JsonThrows _ => false
              end
  | Rejected _ => false
  end.

(** What the runtime itself throws into [catch], if anything: the
    rejection of [fetch], or of [response.json()]. *)
Definition runtimeThrown (f : Fetched) : option JS.Thrown :=
  match f with
  | Rejected e => Some e
  | Resolved r =>
      if ok r
      then match json r with JsonThrows e => Some e | Json _ => None end
      else None
  end.

(** The errors a browser raises carry a message that is not empty. *)
Definition messageCarried (f : Fetched) : bool :=
  match runtimeThrown f with
  | Some e => truthy (errorMessage e)
  | None => true
  end.

(** The fetch whose payload is [{status: "OK", data: d}]. *)
Definition okFetch (d : list ScoreData) : Fetched :=
  Resolved {| ok := true; json := Json {| data := d; status := "OK" |} |}.

(** The records of the decoded payload, if the body decoded. *)
Definition payload (f : Fetched) : list ScoreData :=
  match f with
  | Resolved r =>
      match json r with Json result => data result | JsonThrows _ => [] end
  | Rejected _ => []
  end.

(** The message a fetch that does not succeed hands to [setError]. *)
Definition failureMessage (f : Fetched) : string :=
  match f with
  | Rejected e => errorMessage e
  | Resolved r =>
      if ok r
      then match json r with
           | JsonThrows e => errorMessage e
           | Json _ => msgBadStatus
           end
      else msgFetchFailed
  end.

(** Whether a fetch cycle replaces the record set, and whether it
    sets an error. *)
Definition homeReplaces (acts : list Home.Action) : bool :=
  existsb (fun a => match a with Home.SetScoreData _ => true | _ => false end)
          acts.

Definition homeRaises (acts : list Home.Action) : bool :=
  existsb (fun a => match a with Home.SetError (Some _) => true | _ => false end)
          acts.

Definition pageReplaces (acts : list TotalPage.Action) : bool :=
  existsb
    (fun a => match a with TotalPage.SetScoreData _ => true | _ => false end)
    acts.

Definition pageRaises (acts : list TotalPage.Action) : bool :=
  existsb
    (fun a => match a with TotalPage.SetError (Some _) => true | _ => false end)
    acts.

Definition settled (ev : TotalPage.Event) : bool :=
  match ev with TotalPage.FetchSettled _ => true | _ => false end.

Definition eventCarried (ev : TotalPage.Event) : bool :=
  match ev with TotalPage.FetchSettled f => messageCarried f | _ => true end.

(** Whenever both dates are filled in, [filteredData] is the filter
    of [scoreData] at the current range. *)
Definition inStep (tz : Z) (st : TotalReactive.State) : Prop :=
  match TotalReactive.startDate st, TotalReactive.endDate st with
  | Some sd, Some ed =>
      TotalReactive.filteredData st
      = filter (TotalReactive.inRange tz sd ed (TotalReactive.startTime st)
                                      (TotalReactive.endTime st))
               (TotalReactive.scoreData st)
  | _, _ => True
  end.

(** Newest first. *)
Definition descending (items : list ScoreData) : Prop :=
  StronglySorted (fun a b => instant b <= instant a) items.

(** The sum of the entries of a series that are not null. *)
Definition presentSum (series : list (option Z)) : Z :=
  Zsum (map (fun v => match v with Some x => x | None => 0 end) series).

Definition reactiveCarried (ev : TotalReactive.Event) : bool :=
  match ev with
  | TotalReactive.FetchSettled f => messageCarried f
  | _ => true
  end.

(** ** The calendar of the examples *)

Example days_from_civil_known :
  JS.days_from_civil 1970 1 1 = 0
  /\ JS.days_from_civil 2000 3 1 = 11017
  /\ JS.days_from_civil 2024 10 5 = 20001
  /\ JS.wall 2024 10 5 0 0 0 = 1728086400000.
Proof. repeat split. Qed.

(** ** Aggregation *)

Lemma reduceTotals_from (items : list ScoreData) (acc : Totals) :
  fold_left
    (fun acc item =>
       if 0 <=? score item
       then {| fun_ := fun_ acc + score item; tired := tired acc |}
       else {| fun_ := fun_ acc; tired := tired acc + Z.abs (score item) |})
    items acc
  = {| fun_ := fun_ acc + Zsum (funScores items);
       tired := tired acc + Zsum (tiredScores items) |}.
Proof.
  revert acc.
  induction items as [|item items IH]; intros [f t]; simpl.
  - f_equal; lia.
  - rewrite IH. unfold funScores, tiredScores. simpl.
    destruct (Z.leb_spec 0 (score item)) as [Hs|Hs];
      destruct (Z.ltb_spec (score item) 0) as [Hn|Hn]; try lia;
      simpl; f_equal; lia.
Qed.

Lemma reduceTotals_closed (items : list ScoreData) :
  reduceTotals items
  = {| fun_ := Zsum (funScores items); tired := Zsum (tiredScores items) |}.
Proof.
  unfold reduceTotals. rewrite reduceTotals_from. reflexivity.
Qed.

Lemma reduceTotals_snoc (items : list ScoreData) (item : ScoreData) :
  reduceTotals (items ++ [item])
  = if 0 <=? score item
    then {| fun_ := fun_ (reduceTotals items) + score item;
            tired := tired (reduceTotals items) |}
    else {| fun_ := fun_ (reduceTotals items);
            tired := tired (reduceTotals items) + Z.abs (score item) |}.
Proof.
  unfold reduceTotals. rewrite fold_left_app. reflexivity.
Qed.

Example scenario_1 :
  reduceTotals [mkScoreData 0 1 10; mkScoreData 1000 2 (-5); mkScoreData 2000 3 0]
  = {| fun_ := 10; tired := 5 |}.
Proof. reflexivity. Qed.

(** C9. Total decomposition: on the totals page without a filter,
    [totalData.fun + totalData.tired] is the sum of [abs score] over
    all records. *)
Theorem total_decomposition (st : TotalPlain.State) :
  fun_ (TotalPlain.totalData st) + tired (TotalPlain.totalData st)
  = Zsum (map (fun item => Z.abs (score item)) (TotalPlain.scoreData st)).
Proof.
  unfold TotalPlain.totalData. rewrite reduceTotals_closed. simpl.
  induction (TotalPlain.scoreData st) as [|item items IH]; [reflexivity|].
  unfold funScores, tiredScores in *. simpl.
  destruct (Z.leb_spec 0 (score item)); destruct (Z.ltb_spec (score item) 0);
    try lia; simpl; lia.
Qed.

(** ** The two series of the live chart *)

Lemma funData_nth (scoreData : list ScoreData) (i : nat) :
  nth_error (Home.funData scoreData) i
  = option_map (fun item => if 0 <? score item then Some (score item) else None)
               (nth_error scoreData i).
Proof. unfold Home.funData. apply nth_error_map. Qed.

Lemma tiredData_nth (scoreData : list ScoreData) (i : nat) :
  nth_error (Home.tiredData scoreData) i
  = option_map
      (fun item => if score item <? 0 then Some (Z.abs (score item)) else None)
      (nth_error scoreData i).
Proof. unfold Home.tiredData. apply nth_error_map. Qed.

(** C2. Series split: both series are as long as the record set; at
    an index [i] holding record [item], [funData[i]] is [item.score]
    when the score is positive and null otherwise, [tiredData[i]] is
    [abs item.score] when the score is negative and null otherwise; a
    record with score 0 is null in both. *)
Theorem series_split (scoreData : list ScoreData) :
  List.length (Home.funData scoreData) = List.length scoreData
  /\ List.length (Home.tiredData scoreData) = List.length scoreData
  /\ forall (i : nat) (item : ScoreData),
       nth_error scoreData i = Some item ->
       (0 < score item ->
        nth_error (Home.funData scoreData) i = Some (Some (score item)))
       /\ (score item <= 0 ->
           nth_error (Home.funData scoreData) i = Some None)
       /\ (score item < 0 ->
           nth_error (Home.tiredData scoreData) i
           = Some (Some (Z.abs (score item))))
       /\ (0 <= score item ->
           nth_error (Home.tiredData scoreData) i = Some None)
       /\ (score item = 0 ->
           nth_error (Home.funData scoreData) i = Some None
           /\ nth_error (Home.tiredData scoreData) i = Some None).
Proof.
  split; [apply length_map|]. split; [apply length_map|].
  intros i item Hi.
  rewrite funData_nth, tiredData_nth, Hi. simpl.
  destruct (Z.ltb_spec 0 (score item)); destruct (Z.ltb_spec (score item) 0);
    repeat split; intros; try reflexivity; lia.
Qed.

Example scenario_2 :
  let R := [mkScoreData 0 1 10; mkScoreData 1000 2 (-5); mkScoreData 2000 3 0] in
  Home.funData R = [Some 10; None; None]
  /\ Home.tiredData R = [None; Some 5; None].
Proof. split; reflexivity. Qed.

(** C7. Series disjointness: at no index are [funData[i]] and
    [tiredData[i]] both numbers; where the score is 0 both are null. *)
Theorem series_disjoint (scoreData : list ScoreData) (i : nat) :
  ~ (exists a b : Z,
       nth_error (Home.funData scoreData) i = Some (Some a)
       /\ nth_error (Home.tiredData scoreData) i = Some (Some b))
  /\ forall item : ScoreData,
       nth_error scoreData i = Some item ->
       score item = 0 ->
       nth_error (Home.funData scoreData) i = Some None
       /\ nth_error (Home.tiredData scoreData) i = Some None.
Proof.
  rewrite funData_nth, tiredData_nth.
  destruct (nth_error scoreData i) as [item|]; simpl.
  - split.
    + intros (a & b & Ha & Hb).
      destruct (Z.ltb_spec 0 (score item)); [|discriminate].
      destruct (Z.ltb_spec (score item) 0); [lia|discriminate].
    + intros item' Heq Hz. injection Heq as <-. rewrite Hz. split; reflexivity.
  - split; [intros (a & b & Ha & _); discriminate | intros ? ?; discriminate].
Qed.

(** ** The range filter *)

Lemma Date_iso_hour (tz d hh mm ss : Z) (off : option Z) :
  0 <= hh <= 23 -> 0 <= mm <= 59 -> 0 <= ss <= 59 ->
  JS.Date_iso tz d hh mm ss off
  = Some (d * JS.msPerDay + hh * JS.msPerHour + mm * JS.msPerMinute
          + ss * JS.msPerSecond
          - match off with Some o => o | None => tz end * JS.msPerMinute).
Proof.
  intros Hh Hm Hs. unfold JS.Date_iso, JS.valid_time.
  replace (0 <=? hh) with true by (symmetry; apply Z.leb_le; lia).
  replace (hh <=? 23) with true by (symmetry; apply Z.leb_le; lia).
  replace (0 <=? mm) with true by (symmetry; apply Z.leb_le; lia).
  replace (mm <=? 59) with true by (symmetry; apply Z.leb_le; lia).
  replace (0 <=? ss) with true by (symmetry; apply Z.leb_le; lia).
  replace (ss <=? 59) with true by (symmetry; apply Z.leb_le; lia).
  reflexivity.
Qed.

(** The button's filter compares wall-clock readings: the browser's
    zone, a fixed offset, cancels. *)
Lemma page_inRange_spec (tz : Z) (sd ed : JS.Day) (h0 h1 : Z) (item : ScoreData) :
  0 <= h0 <= 23 -> 0 <= h1 <= 23 ->
  TotalPage.inRange tz sd ed (h0, h1) item = true
  <-> sd * JS.msPerDay + h0 * JS.msPerHour <= created_at item
      /\ created_at item
         <= ed * JS.msPerDay + h1 * JS.msPerHour + 59 * JS.msPerMinute.
Proof.
  intros H0 H1. unfold TotalPage.inRange. simpl fst. simpl snd.
  rewrite !Date_iso_hour by lia.
  unfold JS.Date_local. simpl. rewrite andb_true_iff, !Z.leb_le.
  unfold JS.msPerDay, JS.msPerHour, JS.msPerMinute, JS.msPerSecond. lia.
Qed.

(** The reactive filter in a browser at [tz]: the Tokyo wall clock of
    the record is read back at [tz], not at +09:00. *)
Lemma reactive_inRange_spec (tz : Z) (sd ed : JS.Day) (h0 h1 : Z)
    (item : ScoreData) :
  0 <= h0 <= 23 -> 0 <= h1 <= 23 ->
  TotalReactive.inRange tz sd ed h0 h1 item = true
  <-> startInstant sd h0
      <= instant item / 1000 * 1000 + (JS.jst - tz) * JS.msPerMinute
      /\ instant item / 1000 * 1000 + (JS.jst - tz) * JS.msPerMinute
         <= endInstant ed h1.
Proof.
  intros H0 H1. unfold TotalReactive.inRange.
  rewrite !Date_iso_hour by lia.
  unfold JS.Date_local, TotalReactive.formatDateToJST, JS.format_Tokyo.
  simpl JS.ge. simpl JS.le. rewrite andb_true_iff, !Z.leb_le.
  unfold startInstant, endInstant, instant, JS.Date_utc, JS.jst,
    JS.msPerDay, JS.msPerHour, JS.msPerMinute, JS.msPerSecond.
  Z.div_mod_to_equations. lia.
Qed.

(** C3.  The button's filter of [app/total/page.tsx] at a record on
    the start boundary.  The record's [created_at] is
    2024-10-05T00:00:00, read as UTC the instant 2024-10-05T09:00:00+09:00:
    the start of the range "2024-10-05, hours 9 to 9" at +09:00, so
    within [start, end] with both ends included.  The button's filter
    reads the timestamp and both boundaries without an offset and drops
    the record, in a browser in Japan as in one at UTC; the reactive
    revision of the page, which converts to the Tokyo clock and writes
    "+09:00", keeps it in a browser in Japan. *)
Lemma filter_boundaries_page_defect :
  let d := JS.days_from_civil 2024 10 5 in
  let item := mkScoreData (JS.wall 2024 10 5 0 0 0) 1 10 in
  let pst := TotalPage.mkState [item] [item] false None (Some d) (Some d) (9, 9) in
  let rst := TotalReactive.mkState [item] [item] false None (Some d) (Some d) 9 9 in
  instant item = startInstant d 9
  /\ startInstant d 9 <= instant item <= endInstant d 9
  /\ TotalPage.filteredData (TotalPage.step JS.jst pst TotalPage.ClickApply) = []
  /\ TotalPage.filteredData (TotalPage.step 0 pst TotalPage.ClickApply) = []
  /\ TotalReactive.filteredData
       (fold_left TotalReactive.apply (TotalReactive.filterEffect JS.jst rst) rst)
     = [item].
Proof. vm_compute. repeat split; discriminate. Qed.

(** Outside Japan the reactive filter is off by the distance of the
    browser's zone from +09:00: at UTC the same record, at the start
    instant of its range, is dropped. *)
Example reactive_filter_at_utc :
  let d := JS.days_from_civil 2024 10 5 in
  let item := mkScoreData (JS.wall 2024 10 5 0 0 0) 1 10 in
  instant item = startInstant d 9
  /\ TotalReactive.inRange JS.jst d d 9 9 item = true
  /\ TotalReactive.inRange 0 d d 9 9 item = false.
Proof. vm_compute. repeat split. Qed.

Lemma filter_nothing {A : Type} (p : A -> bool) (l : list A) :
  (forall x, p x = false) -> filter p l = [].
Proof.
  intros Hp. induction l as [|x l IH]; simpl; [reflexivity|].
  now rewrite Hp.
Qed.

Lemma between_inverted (c s e : JS.Time) (x y : Z) :
  s = Some x -> e = Some y -> y < x -> JS.ge c s && JS.le c e = false.
Proof.
  intros -> -> Hlt. destruct c as [t|]; simpl; [|reflexivity].
  apply andb_false_iff.
  destruct (Z.leb_spec x t); [right; apply Z.leb_gt; lia | now left].
Qed.

(** C8. Inverted range: when the start instant the button's filter
    computes is strictly greater than its end instant, the filtered
    set is empty, the totals are [{fun: 0, tired: 0}], and nothing is
    raised: the error state stays as it was. *)
Theorem inverted_range_empty
    (tz : Z) (st : TotalPage.State) (sd ed : JS.Day) (s e : Z) :
  TotalPage.startDate st = Some sd ->
  TotalPage.endDate st = Some ed ->
  JS.Date_iso tz sd (fst (TotalPage.timeRange st)) 0 0 None = Some s ->
  JS.Date_iso tz ed (snd (TotalPage.timeRange st)) 59 0 None = Some e ->
  e < s ->
  let st' := TotalPage.step tz st TotalPage.ClickApply in
  TotalPage.filteredData st' = []
  /\ TotalPage.totalData st' = {| fun_ := 0; tired := 0 |}
  /\ TotalPage.error st' = TotalPage.error st.
Proof.
  intros Hsd Hed Hs He Hlt.
  assert (Hf : TotalPage.filteredData (TotalPage.step tz st TotalPage.ClickApply)
               = []).
  { unfold TotalPage.step, TotalPage.handle, TotalPage.applyDateFilter.
    rewrite Hsd, Hed. simpl. apply filter_nothing. intros item.
    unfold TotalPage.inRange. now apply (between_inverted _ _ _ s e). }
  cbv zeta. split; [exact Hf|]. split.
  - unfold TotalPage.totalData. rewrite Hf. reflexivity.
  - unfold TotalPage.step, TotalPage.handle, TotalPage.applyDateFilter.
    rewrite Hsd, Hed. reflexivity.
Qed.

Lemma inverted_range_empty_witness :
  let d1 := JS.days_from_civil 2024 10 5 in
  let d2 := JS.days_from_civil 2024 10 6 in
  let item := mkScoreData (JS.wall 2024 10 5 12 0 0) 1 10 in
  let st := TotalPage.mkState [item] [item] false None (Some d2) (Some d1) (0, 23) in
  JS.Date_iso JS.jst d2 0 0 0 None = Some (JS.wall 2024 10 5 15 0 0)
  /\ JS.Date_iso JS.jst d1 23 59 0 None = Some (JS.wall 2024 10 5 14 59 0)
  /\ JS.wall 2024 10 5 14 59 0 < JS.wall 2024 10 5 15 0 0
  /\ TotalPage.totalData (TotalPage.step JS.jst st TotalPage.ClickApply)
     = {| fun_ := 0; tired := 0 |}.
Proof.
  cbv zeta. split; [reflexivity|]. split; [reflexivity|].
  split; [reflexivity|].
  apply (inverted_range_empty JS.jst
           (TotalPage.mkState _ _ false None _ _ (0, 23))
           (JS.days_from_civil 2024 10 6) (JS.days_from_civil 2024 10 5)
           (JS.wall 2024 10 5 15 0 0) (JS.wall 2024 10 5 14 59 0)
           eq_refl eq_refl eq_refl eq_refl eq_refl).
Defined.

(** The reactive filter, likewise. *)
Lemma inverted_range_empty_reactive
    (tz : Z) (R : list ScoreData) (sd ed : JS.Day) (t0 t1 s e : Z) :
  JS.Date_iso tz sd t0 0 0 (Some JS.jst) = Some s ->
  JS.Date_iso tz ed t1 59 59 (Some JS.jst) = Some e ->
  e < s ->
  filter (TotalReactive.inRange tz sd ed t0 t1) R = []
  /\ reduceTotals (filter (TotalReactive.inRange tz sd ed t0 t1) R)
     = {| fun_ := 0; tired := 0 |}.
Proof.
  intros Hs He Hlt.
  assert (Hf : filter (TotalReactive.inRange tz sd ed t0 t1) R = []).
  { apply filter_nothing. intros item. unfold TotalReactive.inRange.
    now apply (between_inverted _ _ _ s e). }
  rewrite Hf. split; reflexivity.
Qed.

(** ** Ordering after a fetch *)

Lemma byCreatedAt_leb (tz : Z) (a b : ScoreData) :
  (Home.byCreatedAt tz a b <=? 0) = (instant a <=? instant b).
Proof.
  unfold Home.byCreatedAt, JS.Date_local, instant, JS.Date_utc. simpl.
  destruct (Z.leb_spec (created_at a) (created_at b));
    [apply Z.leb_le | apply Z.leb_gt]; lia.
Qed.

Lemma insert_perm {A : Type} (cmp : A -> A -> Z) (x : A) (l : list A) :
  Permutation (x :: l) (JS.insert cmp x l).
Proof.
  induction l as [|y l IH]; simpl; [reflexivity|].
  destruct (cmp x y <=? 0); [reflexivity|].
  rewrite perm_swap. now apply perm_skip.
Qed.

Lemma Array_sort_perm {A : Type} (cmp : A -> A -> Z) (l : list A) :
  Permutation l (JS.Array_sort cmp l).
Proof.
  induction l as [|x l IH]; simpl; [reflexivity|].
  rewrite <- insert_perm. now apply perm_skip.
Qed.

Lemma insert_ascending (tz : Z) (x : ScoreData) (l : list ScoreData) :
  ascending l -> ascending (JS.insert (Home.byCreatedAt tz) x l).
Proof.
  unfold ascending. induction 1 as [|y l Hl IH Hy]; simpl.
  - repeat constructor.
  - rewrite byCreatedAt_leb.
    destruct (Z.leb_spec (instant x) (instant y)) as [Hxy|Hxy].
    + constructor; [now constructor|].
      constructor; [exact Hxy|].
      eapply Forall_impl; [|exact Hy]. simpl. intros; lia.
    + constructor; [exact IH|].
      eapply Permutation_Forall; [apply insert_perm|].
      constructor; [lia | exact Hy].
Qed.

Lemma Array_sort_ascending (tz : Z) (l : list ScoreData) :
  ascending (JS.Array_sort (Home.byCreatedAt tz) l).
Proof.
  induction l as [|x l IH]; simpl; [constructor|].
  now apply insert_ascending.
Qed.

(** Records already in ascending order are left as they are, ties
    included. *)
Lemma Array_sort_fixes_ascending (tz : Z) (l : list ScoreData) :
  ascending l -> JS.Array_sort (Home.byCreatedAt tz) l = l.
Proof.
  unfold ascending. induction 1 as [|x l Hl IH Hx]; simpl; [reflexivity|].
  rewrite IH. destruct l as [|y l]; simpl; [reflexivity|].
  rewrite byCreatedAt_leb. inversion Hx; subst.
  replace (instant x <=? instant y) with true
    by (symmetry; now apply Z.leb_le).
  reflexivity.
Qed.

Lemma succeeds_okFetch (f : Fetched) :
  succeeds f = true ->
  exists d, f = Resolved {| ok := true;
                            json := Json {| data := d; status := "OK" |} |}.
Proof.
  destruct f as [[o [[d s]|e]]|e]; simpl; try discriminate;
    try (rewrite andb_false_r; discriminate).
  intros H. apply andb_true_iff in H as [-> Hs].
  apply String.eqb_eq in Hs as ->. now exists d.
Qed.

(** C5, as the code has it.  After every successful fetch of the live
    view the stored record set is the payload's records in ascending
    order of [created_at] (the instants compared; reading the
    timestamps as UTC or in the browser's fixed zone gives the same
    order).  The totals pages store the payload's records in the
    order received. *)
Theorem post_fetch_ordering
    (tz : Z) (f : Fetched)
    (hst : Home.State) (plain : TotalPlain.State) (pst : TotalPage.State)
    (rst : TotalReactive.State) :
  succeeds f = true ->
  (ascending (Home.scoreData (Home.fetchCycle tz hst f))
   /\ Permutation (payload f) (Home.scoreData (Home.fetchCycle tz hst f)))
  /\ TotalPlain.scoreData (TotalPlain.fetchCycle plain f) = payload f
  /\ TotalPage.scoreData (TotalPage.step tz pst (TotalPage.FetchSettled f))
     = payload f
  /\ TotalReactive.scoreData
       (TotalReactive.step tz rst (TotalReactive.FetchSettled f))
     = payload f.
Proof.
  intros Hok. destruct (succeeds_okFetch f Hok) as [d ->]. repeat split.
  - apply Array_sort_ascending.
  - apply Array_sort_perm.
  - unfold TotalReactive.step. cbv zeta.
    destruct (TotalReactive.depsChanged _ _ _); [|reflexivity].
    unfold TotalReactive.filterEffect. simpl.
    destruct (TotalReactive.startDate rst), (TotalReactive.endDate rst);
      reflexivity.
Qed.


Lemma post_fetch_ordering_witness :
  let early := mkScoreData (JS.wall 2024 10 5 9 0 0) 1 10 in
  let late := mkScoreData (JS.wall 2024 10 5 10 0 0) 2 (-5) in
  let f := okFetch [late; early] in
  succeeds f = true
  /\ Home.scoreData (Home.fetchCycle JS.jst Home.initial f) = [early; late]
  /\ ascending (Home.scoreData (Home.fetchCycle JS.jst Home.initial f)).
Proof.
  cbv zeta. split; [reflexivity|]. split; [reflexivity|].
  apply (post_fetch_ordering JS.jst
           (okFetch [mkScoreData (JS.wall 2024 10 5 10 0 0) 2 (-5);
                     mkScoreData (JS.wall 2024 10 5 9 0 0) 1 10])
           Home.initial TotalPlain.initial
           (TotalPage.initial 0) (TotalReactive.initial 0) eq_refl).
Defined.

(** C5 as stated fails on the totals pages: a payload that lists a
    later record before an earlier one is stored as it came. *)
Lemma post_fetch_ordering_counterexample :
  let early := mkScoreData (JS.wall 2024 10 5 9 0 0) 1 10 in
  let late := mkScoreData (JS.wall 2024 10 5 10 0 0) 2 (-5) in
  let today := JS.days_from_civil 2024 10 5 in
  let st := TotalPage.step JS.jst (TotalPage.initial today)
              (TotalPage.FetchSettled (okFetch [late; early])) in
  succeeds (okFetch [late; early]) = true
  /\ TotalPage.scoreData st = [late; early]
  /\ ~ ascending (TotalPage.scoreData st).
Proof.
  cbv zeta. split; [reflexivity|]. split; [reflexivity|].
  simpl. intros Hs. inversion Hs as [|? ? _ Hall]; subst.
  inversion Hall as [|? ? Hle _]; subst. vm_compute in Hle. now apply Hle.
Qed.

(** ** Fetch cycles *)

Lemma Home_fetchData_eq (tz : Z) (f : Fetched) :
  Home.fetchData tz f
  = if succeeds f
    then [Home.SetScoreData (JS.Array_sort (Home.byCreatedAt tz) (payload f));
          Home.SetLoading false]
    else [Home.SetError (Some (failureMessage f)); Home.SetLoading false].
Proof.
  destruct f as [[[] [[d s]|e]]|e]; simpl; try reflexivity.
  unfold Home.fetchData. simpl. destruct (String.eqb s "OK"); reflexivity.
Qed.

Lemma TotalPlain_fetchData_eq (f : Fetched) :
  TotalPlain.fetchData f
  = if succeeds f
    then [TotalPlain.SetScoreData (payload f); TotalPlain.SetLoading false]
    else [TotalPlain.SetError (Some (failureMessage f));
          TotalPlain.SetLoading false].
Proof.
  destruct f as [[[] [[d s]|e]]|e]; simpl; try reflexivity.
  unfold TotalPlain.fetchData. simpl. destruct (String.eqb s "OK"); reflexivity.
Qed.

Lemma TotalPage_fetchData_eq (f : Fetched) :
  TotalPage.fetchData f
  = if succeeds f
    then [TotalPage.SetScoreData (payload f);
          TotalPage.SetFilteredData (payload f); TotalPage.SetLoading false]
    else [TotalPage.SetError (Some (failureMessage f));
          TotalPage.SetLoading false].
Proof.
  destruct f as [[[] [[d s]|e]]|e]; simpl; try reflexivity.
  unfold TotalPage.fetchData. simpl. destruct (String.eqb s "OK"); reflexivity.
Qed.

Lemma TotalReactive_fetchData_eq (f : Fetched) :
  TotalReactive.fetchData f
  = if succeeds f
    then [TotalReactive.SetScoreData (payload f);
          TotalReactive.SetFilteredData (payload f);
          TotalReactive.SetLoading false]
    else [TotalReactive.SetError (Some (failureMessage f));
          TotalReactive.SetLoading false].
Proof.
  destruct f as [[[] [[d s]|e]]|e]; simpl; try reflexivity.
  unfold TotalReactive.fetchData. simpl.
  destruct (String.eqb s "OK"); reflexivity.
Qed.

Lemma Home_fetchCycle_eq (tz : Z) (st : Home.State) (f : Fetched) :
  Home.fetchCycle tz st f
  = if succeeds f
    then {| Home.scoreData := JS.Array_sort (Home.byCreatedAt tz) (payload f);
            Home.loading := false;
            Home.error := Home.error st |}
    else {| Home.scoreData := Home.scoreData st;
            Home.loading := false;
            Home.error := Some (failureMessage f) |}.
Proof.
  unfold Home.fetchCycle. rewrite Home_fetchData_eq.
  destruct (succeeds f); reflexivity.
Qed.

Lemma TotalPage_fetch_eq (tz : Z) (st : TotalPage.State) (f : Fetched) :
  TotalPage.step tz st (TotalPage.FetchSettled f)
  = if succeeds f
    then TotalPage.mkState (payload f) (payload f) false (TotalPage.error st)
           (TotalPage.startDate st) (TotalPage.endDate st)
           (TotalPage.timeRange st)
    else TotalPage.mkState (TotalPage.scoreData st) (TotalPage.filteredData st)
           false (Some (failureMessage f))
           (TotalPage.startDate st) (TotalPage.endDate st)
           (TotalPage.timeRange st).
Proof.
  unfold TotalPage.step, TotalPage.handle. rewrite TotalPage_fetchData_eq.
  destruct (succeeds f); reflexivity.
Qed.

Lemma messages_differ : msgFetchFailed <> msgBadStatus.
Proof. discriminate. Qed.

(** C6. Fetch success condition: a fetch cycle replaces the record
    set iff the transport reports success and the decoded payload's
    status is "OK"; every other cycle sets an error and leaves the
    record set alone.  A response that is not [ok] sets one message, a
    decoded status other than "OK" another, and the two differ. *)
Theorem fetch_success_condition (tz : Z) (f : Fetched) :
  homeReplaces (Home.fetchData tz f) = succeeds f
  /\ homeRaises (Home.fetchData tz f) = negb (succeeds f)
  /\ pageReplaces (TotalPage.fetchData f) = succeeds f
  /\ pageRaises (TotalPage.fetchData f) = negb (succeeds f)
  /\ (forall st,
        Home.scoreData (Home.fetchCycle tz st f)
        = if succeeds f
          then JS.Array_sort (Home.byCreatedAt tz) (payload f)
          else Home.scoreData st)
  /\ (forall st,
        TotalPage.scoreData (TotalPage.step tz st (TotalPage.FetchSettled f))
        = if succeeds f then payload f else TotalPage.scoreData st)
  /\ (forall body,
        Home.fetchData tz (Resolved {| ok := false; json := body |})
        = [Home.SetError (Some msgFetchFailed); Home.SetLoading false]
        /\ TotalPage.fetchData (Resolved {| ok := false; json := body |})
           = [TotalPage.SetError (Some msgFetchFailed);
              TotalPage.SetLoading false])
  /\ (forall result,
        String.eqb (status result) "OK" = false ->
        Home.fetchData tz (Resolved {| ok := true; json := Json result |})
        = [Home.SetError (Some msgBadStatus); Home.SetLoading false]
        /\ TotalPage.fetchData (Resolved {| ok := true; json := Json result |})
           = [TotalPage.SetError (Some msgBadStatus);
              TotalPage.SetLoading false])
  /\ msgFetchFailed <> msgBadStatus.
Proof.
  rewrite Home_fetchData_eq, TotalPage_fetchData_eq.
  repeat split; try (destruct (succeeds f); reflexivity).
  - intros st. rewrite Home_fetchCycle_eq. destruct (succeeds f); reflexivity.
  - intros st. rewrite TotalPage_fetch_eq. destruct (succeeds f); reflexivity.
  - rewrite Home_fetchData_eq. simpl. now rewrite H.
  - rewrite TotalPage_fetchData_eq. simpl. now rewrite H.
  - exact messages_differ.
Qed.

(** ** What is rendered over a run of fetch cycles *)

Lemma truthy_failureMessage (f : Fetched) :
  messageCarried f = true -> truthy (failureMessage f) = true.
Proof.
  unfold messageCarried, runtimeThrown, failureMessage.
  destruct f as [[[] [result|e]]|e]; simpl; trivial.
Qed.

Lemma Home_run_loading (tz : Z) (fs : list Fetched) (st : Home.State) :
  Home.loading st = false -> Home.loading (Home.run tz st fs) = false.
Proof.
  revert st. induction fs as [|f fs IH]; intros st Hl; simpl; [exact Hl|].
  apply IH. rewrite Home_fetchCycle_eq. destruct (succeeds f); reflexivity.
Qed.

Lemma Home_loading_view (tz : Z) (fs : list Fetched) :
  Home.render (Home.run tz Home.initial fs) = LoadingView <-> fs = [].
Proof.
  split; [|intros ->; reflexivity].
  destruct fs as [|f fs]; [reflexivity|]. intros Hr. exfalso.
  unfold Home.render in Hr. simpl Home.run in Hr.
  rewrite Home_run_loading in Hr.
  - simpl in Hr. destruct (Home.error _) as [m|]; [destruct (truthy m)|];
      discriminate.
  - rewrite Home_fetchCycle_eq. destruct (succeeds f); reflexivity.
Qed.

Lemma Home_error_view (st : Home.State) (msg : string) :
  Home.loading st = false -> Home.error st = Some msg -> truthy msg = true ->
  Home.render st = ErrorView msg.
Proof.
  intros Hl He Ht. unfold Home.render. now rewrite Hl, He, Ht.
Qed.

Lemma Home_error_stays (tz : Z) (fs : list Fetched) (st : Home.State) :
  Home.error st <> None -> Home.error (Home.run tz st fs) <> None.
Proof.
  revert st. induction fs as [|f fs IH]; intros st He; simpl; [exact He|].
  apply IH. rewrite Home_fetchCycle_eq.
  destruct (succeeds f); simpl; [exact He | discriminate].
Qed.

Lemma Home_error_shown (tz : Z) (fs : list Fetched) (st : Home.State) :
  forallb messageCarried fs = true ->
  (exists msg, Home.error st = Some msg /\ truthy msg = true) ->
  exists msg, Home.error (Home.run tz st fs) = Some msg /\ truthy msg = true.
Proof.
  revert st. induction fs as [|f fs IH]; intros st Hfs He; simpl; [exact He|].
  simpl in Hfs. apply andb_true_iff in Hfs as [Hf Hfs].
  apply IH; [exact Hfs|]. rewrite Home_fetchCycle_eq.
  destruct (succeeds f); simpl; [exact He|].
  eexists. split; [reflexivity|]. now apply truthy_failureMessage.
Qed.

Lemma TotalPage_step_loading (tz : Z) (st : TotalPage.State)
    (ev : TotalPage.Event) :
  TotalPage.loading (TotalPage.step tz st ev)
  = TotalPage.loading st && negb (settled ev).
Proof.
  destruct ev; try (simpl; now rewrite andb_true_r).
  - rewrite TotalPage_fetch_eq. simpl. rewrite andb_false_r.
    destruct (succeeds f); reflexivity.
  - unfold TotalPage.step, TotalPage.handle, TotalPage.applyDateFilter.
    destruct (TotalPage.startDate st), (TotalPage.endDate st); simpl;
      now rewrite andb_true_r.
Qed.

Lemma TotalPage_step_scoreData (tz : Z) (st : TotalPage.State)
    (ev : TotalPage.Event) :
  settled ev = false ->
  TotalPage.scoreData (TotalPage.step tz st ev) = TotalPage.scoreData st.
Proof.
  destruct ev; try discriminate; intros _; try reflexivity.
  unfold TotalPage.step, TotalPage.handle, TotalPage.applyDateFilter.
  destruct (TotalPage.startDate st), (TotalPage.endDate st); reflexivity.
Qed.

Lemma TotalPage_step_error (tz : Z) (st : TotalPage.State)
    (ev : TotalPage.Event) :
  TotalPage.error (TotalPage.step tz st ev)
  = match ev with
    | TotalPage.FetchSettled f =>
        if succeeds f then TotalPage.error st else Some (failureMessage f)
    | _ => TotalPage.error st
    end.
Proof.
  destruct ev; try reflexivity.
  - rewrite TotalPage_fetch_eq. destruct (succeeds f); reflexivity.
  - unfold TotalPage.step, TotalPage.handle, TotalPage.applyDateFilter.
    destruct (TotalPage.startDate st), (TotalPage.endDate st); reflexivity.
Qed.

Lemma TotalPage_run_loading (tz : Z) (evs : list TotalPage.Event)
    (st : TotalPage.State) :
  TotalPage.loading (TotalPage.run tz st evs)
  = TotalPage.loading st && negb (existsb settled evs).
Proof.
  revert st. induction evs as [|ev evs IH]; intros st; simpl.
  - now rewrite andb_true_r.
  - rewrite IH, TotalPage_step_loading, negb_orb. now rewrite andb_assoc.
Qed.

Lemma TotalPage_run_scoreData (tz : Z) (evs : list TotalPage.Event)
    (st : TotalPage.State) :
  existsb settled evs = false ->
  TotalPage.scoreData (TotalPage.run tz st evs) = TotalPage.scoreData st.
Proof.
  revert st. induction evs as [|ev evs IH]; intros st H; simpl; [reflexivity|].
  simpl in H. apply orb_false_iff in H as [Hev Hevs].
  rewrite IH by exact Hevs. now apply TotalPage_step_scoreData.
Qed.

Lemma TotalPage_loading_view (tz : Z) (today : JS.Day)
    (evs : list TotalPage.Event) :
  TotalPage.render (TotalPage.run tz (TotalPage.initial today) evs)
  = LoadingView
  <-> existsb settled evs = false.
Proof.
  unfold TotalPage.render. rewrite TotalPage_run_loading. simpl.
  destruct (existsb settled evs) eqn:Hs; simpl.
  - split; [|discriminate].
    destruct (TotalPage.error _) as [m|]; [destruct (truthy m)|]; discriminate.
  - rewrite TotalPage_run_scoreData by exact Hs. simpl. tauto.
Qed.

Lemma TotalPage_error_view (st : TotalPage.State) (msg : string) :
  TotalPage.loading st = false -> TotalPage.error st = Some msg ->
  truthy msg = true ->
  TotalPage.render st = ErrorView msg.
Proof.
  intros Hl He Ht. unfold TotalPage.render. now rewrite Hl, He, Ht.
Qed.

Lemma TotalPage_error_stays (tz : Z) (evs : list TotalPage.Event)
    (st : TotalPage.State) :
  TotalPage.error st <> None ->
  TotalPage.error (TotalPage.run tz st evs) <> None.
Proof.
  revert st. induction evs as [|ev evs IH]; intros st He; simpl; [exact He|].
  apply IH. rewrite TotalPage_step_error.
  destruct ev; try exact He. destruct (succeeds f); [exact He|discriminate].
Qed.

Lemma TotalPage_error_shown (tz : Z) (evs : list TotalPage.Event)
    (st : TotalPage.State) :
  forallb eventCarried evs = true ->
  (exists msg, TotalPage.error st = Some msg /\ truthy msg = true) ->
  exists msg,
    TotalPage.error (TotalPage.run tz st evs) = Some msg /\ truthy msg = true.
Proof.
  revert st. induction evs as [|ev evs IH]; intros st Hevs He; simpl;
    [exact He|].
  simpl in Hevs. apply andb_true_iff in Hevs as [Hev Hevs].
  apply IH; [exact Hevs|]. rewrite TotalPage_step_error.
  destruct ev; try exact He. destruct (succeeds f); [exact He|].
  eexists. split; [reflexivity|]. now apply truthy_failureMessage.
Qed.

(** C4, as the code has it.  The loading indicator is rendered only
    while no fetch cycle has settled (so none has succeeded and the
    record set is still empty).  A fetch that fails, by transport or
    by a status other than "OK", leaves the stored record set as it
    was, and the render that follows returns the error view with the
    message of that failure in place of the data view. *)
Theorem error_display_policy
    (tz : Z) (today : JS.Day) (hst : Home.State) (pst : TotalPage.State)
    (f : Fetched) :
  succeeds f = false ->
  messageCarried f = true ->
  (forall fs, Home.render (Home.run tz Home.initial fs) = LoadingView
              <-> fs = [])
  /\ (forall evs,
        TotalPage.render (TotalPage.run tz (TotalPage.initial today) evs)
        = LoadingView
        <-> existsb settled evs = false)
  /\ Home.scoreData (Home.fetchCycle tz hst f) = Home.scoreData hst
  /\ Home.render (Home.fetchCycle tz hst f) = ErrorView (failureMessage f)
  /\ TotalPage.scoreData (TotalPage.step tz pst (TotalPage.FetchSettled f))
     = TotalPage.scoreData pst
  /\ TotalPage.filteredData (TotalPage.step tz pst (TotalPage.FetchSettled f))
     = TotalPage.filteredData pst
  /\ TotalPage.render (TotalPage.step tz pst (TotalPage.FetchSettled f))
     = ErrorView (failureMessage f).
Proof.
  intros Hf Hm. apply truthy_failureMessage in Hm.
  split; [intros fs; apply Home_loading_view|].
  split; [intros evs; apply TotalPage_loading_view|].
  rewrite Home_fetchCycle_eq, TotalPage_fetch_eq, Hf.
  repeat split.
  - now apply Home_error_view.
  - now apply TotalPage_error_view.
Qed.

Lemma error_display_policy_witness :
  let r := mkScoreData (JS.wall 2024 10 5 9 0 0) 1 10 in
  let bad := Resolved {| ok := true;
                         json := Json {| data := []; status := "ERROR" |} |} in
  let loaded := Home.fetchCycle JS.jst Home.initial (okFetch [r]) in
  succeeds bad = false
  /\ messageCarried bad = true
  /\ Home.scoreData (Home.fetchCycle JS.jst loaded bad) = [r]
  /\ Home.render (Home.fetchCycle JS.jst loaded bad) = ErrorView msgBadStatus.
Proof.
  cbv zeta. split; [reflexivity|]. split; [reflexivity|].
  destruct (error_display_policy JS.jst 0
              (Home.fetchCycle JS.jst Home.initial
                 (okFetch [mkScoreData (JS.wall 2024 10 5 9 0 0) 1 10]))
              (TotalPage.initial 0)
              (Resolved {| ok := true;
                           json := Json {| data := []; status := "ERROR" |} |})
              eq_refl eq_refl) as (_ & _ & Hdata & Hview & _).
  split; [exact Hdata | exact Hview].
Defined.

(** C4 as stated fails: after a successful fetch of one record, a
    fetch answered with status "ERROR" keeps the record in the state,
    and the render returns the error view, not the data view that was
    on screen. *)
Lemma error_display_policy_counterexample :
  let r := mkScoreData (JS.wall 2024 10 5 9 0 0) 1 10 in
  let bad := Resolved {| ok := true;
                         json := Json {| data := []; status := "ERROR" |} |} in
  let before := Home.run JS.jst Home.initial [okFetch [r]] in
  let after := Home.run JS.jst Home.initial [okFetch [r]; bad] in
  Home.render before = MainView [r]
  /\ Home.scoreData after = [r]
  /\ Home.render after = ErrorView msgBadStatus
  /\ Home.render after <> MainView (Home.scoreData after).
Proof.
  cbv zeta. repeat split. discriminate.
Qed.

(** C10. Sticky error: no handler calls [setError(null)]; once a
    fetch cycle has failed the error state is never [null] again,
    whatever settles or is clicked afterwards; a later successful fetch
    refreshes the record set and leaves the error as it was; and every
    render from then on returns the error view (the messages being the
    component's own or a browser's, none of them empty). *)
Theorem sticky_error
    (tz : Z) (hst : Home.State) (pst : TotalPage.State) (f : Fetched)
    (fs : list Fetched) (evs : list TotalPage.Event) :
  succeeds f = false ->
  (let st := Home.run tz (Home.fetchCycle tz hst f) fs in
   Home.error st <> None
   /\ (forallb messageCarried (f :: fs) = true ->
       exists msg, Home.error st = Some msg
                   /\ Home.render st = ErrorView msg))
  /\ (let st := TotalPage.run tz
                  (TotalPage.step tz pst (TotalPage.FetchSettled f)) evs in
      TotalPage.error st <> None
      /\ (messageCarried f && forallb eventCarried evs = true ->
          exists msg, TotalPage.error st = Some msg
                      /\ TotalPage.render st = ErrorView msg))
  /\ (forall g, ~ In (Home.SetError None) (Home.fetchData tz g))
  /\ (forall st ev, ~ In (TotalPage.SetError None) (TotalPage.handle tz st ev))
  /\ (forall d,
        let failed := Home.fetchCycle tz hst f in
        let st := Home.fetchCycle tz failed (okFetch d) in
        Home.scoreData st = JS.Array_sort (Home.byCreatedAt tz) d
        /\ Home.error st = Home.error failed
        /\ Home.error st = Some (failureMessage f)).
Proof.
  intros Hf. cbv zeta.
  split; [split|split; [split|split; [|split]]].
  - apply Home_error_stays. rewrite Home_fetchCycle_eq, Hf. discriminate.
  - intros Hall. simpl in Hall. apply andb_true_iff in Hall as [Hm Hfs].
    destruct (Home_error_shown tz fs (Home.fetchCycle tz hst f) Hfs)
      as (msg & He & Ht).
    { rewrite Home_fetchCycle_eq, Hf. eexists. split; [reflexivity|].
      now apply truthy_failureMessage. }
    exists msg. split; [exact He|].
    apply Home_error_view; [|exact He|exact Ht].
    apply Home_run_loading. rewrite Home_fetchCycle_eq, Hf. reflexivity.
  - apply TotalPage_error_stays. rewrite TotalPage_fetch_eq, Hf. discriminate.
  - intros Hall. apply andb_true_iff in Hall as [Hm Hevs].
    destruct (TotalPage_error_shown tz evs
                (TotalPage.step tz pst (TotalPage.FetchSettled f)) Hevs)
      as (msg & He & Ht).
    { rewrite TotalPage_fetch_eq, Hf. eexists. split; [reflexivity|].
      now apply truthy_failureMessage. }
    exists msg. split; [exact He|].
    apply TotalPage_error_view; [|exact He|exact Ht].
    rewrite TotalPage_run_loading, TotalPage_fetch_eq, Hf. reflexivity.
  - intros g. rewrite Home_fetchData_eq.
    destruct (succeeds g); simpl; intros [H|[H|[]]]; discriminate.
  - intros st ev. destruct ev as [g| | | | |]; simpl;
      try (intros [H|[]]; discriminate).
    + rewrite TotalPage_fetchData_eq.
      destruct (succeeds g); simpl; intuition discriminate.
    + unfold TotalPage.applyDateFilter.
      destruct (TotalPage.startDate st), (TotalPage.endDate st); simpl;
        intuition discriminate.
  - intros d. rewrite !Home_fetchCycle_eq, Hf. simpl. repeat split.
Qed.

Lemma sticky_error_witness :
  let r := mkScoreData (JS.wall 2024 10 5 9 0 0) 1 10 in
  let down := Rejected (JS.ErrorObject "Failed to fetch") in
  let st := Home.run JS.jst (Home.fetchCycle JS.jst Home.initial down)
                     [okFetch [r]] in
  succeeds down = false
  /\ Home.scoreData st = [r]
  /\ Home.error st <> None
  /\ Home.render st = ErrorView "Failed to fetch".
Proof.
  cbv zeta. split; [reflexivity|]. split; [reflexivity|].
  destruct (sticky_error JS.jst Home.initial (TotalPage.initial 0)
              (Rejected (JS.ErrorObject "Failed to fetch"))
              [okFetch [mkScoreData (JS.wall 2024 10 5 9 0 0) 1 10]] []
              eq_refl) as ((Hset & _) & _).
  split; [exact Hset | reflexivity].
Defined.

(** [if (error)] tests truthiness: an error whose message is the
    empty string is stored, and the guard lets the data view through. *)
Example empty_message_is_falsy :
  let st := Home.fetchCycle JS.jst Home.initial (Rejected (JS.ErrorObject "")) in
  Home.error st = Some ""%string /\ Home.render st = MainView [].
Proof. split; reflexivity. Qed.

(** ** The reactive page keeps its filtered list in step *)

Lemma option_eqb_eq (a b : option Z) :
  TotalReactive.option_eqb a b = true <-> a = b.
Proof.
  destruct a as [x|], b as [y|]; simpl; split; try discriminate; trivial.
  - intros H. apply Z.eqb_eq in H. now subst.
  - intros [= ->]. apply Z.eqb_refl.
Qed.

Lemma filterEffect_inStep (tz : Z) (st : TotalReactive.State) :
  inStep tz (fold_left TotalReactive.apply (TotalReactive.filterEffect tz st) st).
Proof.
  unfold inStep, TotalReactive.filterEffect.
  destruct (TotalReactive.startDate st) as [sd|] eqn:Hsd;
    destruct (TotalReactive.endDate st) as [ed|] eqn:Hed; simpl;
    rewrite ?Hsd, ?Hed; trivial.
Qed.

Lemma step_inStep (tz : Z) (st : TotalReactive.State) (ev : TotalReactive.Event) :
  inStep tz st -> inStep tz (TotalReactive.step tz st ev).
Proof.
  intros Hst. unfold TotalReactive.step. cbv zeta.
  destruct (TotalReactive.depsChanged _ _ _) eqn:Hdeps;
    [apply filterEffect_inStep|].
  unfold TotalReactive.depsChanged in Hdeps.
  repeat (apply orb_false_iff in Hdeps as [Hdeps ?]).
  destruct ev as [f|v|v|v|v]; simpl in *.
  - rewrite TotalReactive_fetchData_eq in *.
    destruct (succeeds f); [discriminate|]. exact Hst.
  - apply negb_false_iff, option_eqb_eq in Hdeps. subst v.
    destruct st; exact Hst.
  - match goal with H : negb (TotalReactive.option_eqb _ v) = false |- _ =>
      apply negb_false_iff, option_eqb_eq in H; subst v end.
    destruct st; exact Hst.
  - match goal with H : negb (_ =? v) = false |- _ =>
      apply negb_false_iff, Z.eqb_eq in H; subst v end.
    destruct st; exact Hst.
  - match goal with H : negb (_ =? v) = false |- _ =>
      apply negb_false_iff, Z.eqb_eq in H; subst v end.
    destruct st; exact Hst.
Qed.



(** ** Totals over the filtered set *)

(** C1.  Range aggregation at a record on the start boundary.  The
    record of score 10 has [created_at] 2024-10-05T00:00:00, read as UTC
    the instant 2024-10-05T09:00:00+09:00, within the range "2024-10-05,
    hours 9 to 9" at +09:00: it is to add 10 to [fun].  In
    [app/total/page.tsx] the totals after the click are
    [{fun: 0, tired: 0}], in a browser in Japan as in one at UTC: the
    button's filter has dropped the record (the reducer itself adds a
    kept record as it should).  The reactive revision of the page gives
    [{fun: 10, tired: 0}] in a browser in Japan. *)
Lemma range_aggregation_page_defect :
  let d := JS.days_from_civil 2024 10 5 in
  let item := mkScoreData (JS.wall 2024 10 5 0 0 0) 1 10 in
  let pst := TotalPage.mkState [item] [item] false None (Some d) (Some d) (9, 9) in
  let rst := TotalReactive.mkState [item] [item] false None (Some d) (Some d) 9 9 in
  startInstant d 9 <= instant item <= endInstant d 9
  /\ reduceTotals [item] = {| fun_ := 10; tired := 0 |}
  /\ TotalPage.totalData (TotalPage.step JS.jst pst TotalPage.ClickApply)
     = {| fun_ := 0; tired := 0 |}
  /\ TotalPage.totalData (TotalPage.step 0 pst TotalPage.ClickApply)
     = {| fun_ := 0; tired := 0 |}
  /\ TotalReactive.totalData
       (fold_left TotalReactive.apply (TotalReactive.filterEffect JS.jst rst) rst)
     = {| fun_ := 10; tired := 0 |}.
Proof. vm_compute. repeat split; discriminate. Qed.

(** ** The live view over its whole run *)

Lemma StronglySorted_app_inv {A : Type} (R : A -> A -> Prop) (a b : list A) :
  StronglySorted R (a ++ b) ->
  StronglySorted R a /\ StronglySorted R b
  /\ Forall (fun x => Forall (R x) b) a.
Proof.
  induction a as [|x a IH]; simpl; intros Hs.
  - repeat split; [constructor | exact Hs | constructor].
  - apply StronglySorted_inv in Hs as [Hs Hx].
    destruct (IH Hs) as (Ha & Hb & Hab).
    apply Forall_app in Hx as [Hxa Hxb].
    repeat split; [now constructor | exact Hb | now constructor].
Qed.

Lemma StronglySorted_app_intro {A : Type} (R : A -> A -> Prop) (a b : list A) :
  StronglySorted R a -> StronglySorted R b ->
  Forall (fun x => Forall (R x) b) a ->
  StronglySorted R (a ++ b).
Proof.
  induction 1 as [|x a Ha IH Hx]; simpl; intros Hb Hab; [exact Hb|].
  inversion Hab as [|? ? Hxb Hab']; subst.
  constructor; [now apply IH|]. apply Forall_app. now split.
Qed.

Lemma StronglySorted_rev {A : Type} (R : A -> A -> Prop) (l : list A) :
  StronglySorted R l -> StronglySorted (fun a b => R b a) (rev l).
Proof.
  induction 1 as [|x l Hl IH Hx]; simpl; [constructor|].
  apply StronglySorted_app_intro; [exact IH | repeat constructor |].
  apply Forall_rev. eapply Forall_impl; [|exact Hx].
  intros y Hxy. now repeat constructor.
Qed.

Lemma Home_run_app (tz : Z) (st : Home.State) (fs fs' : list Fetched) :
  Home.run tz st (fs ++ fs') = Home.run tz (Home.run tz st fs) fs'.
Proof. unfold Home.run. apply fold_left_app. Qed.

Lemma Home_run_ascending (tz : Z) (fs : list Fetched) (st : Home.State) :
  ascending (Home.scoreData st) ->
  ascending (Home.scoreData (Home.run tz st fs)).
Proof.
  revert st. induction fs as [|f fs IH]; intros st Hst; simpl; [exact Hst|].
  apply IH. rewrite Home_fetchCycle_eq.
  destruct (succeeds f); simpl; [apply Array_sort_ascending | exact Hst].
Qed.

Lemma Home_reachable_ascending (tz : Z) (fs : list Fetched) :
  ascending (Home.scoreData (Home.run tz Home.initial fs)).
Proof. apply Home_run_ascending. constructor. Qed.

Lemma formatDateToJST_mono (a b : JS.WallClock) :
  a <= b -> Home.formatDateToJST a <= Home.formatDateToJST b.
Proof.
  intros Hab. unfold Home.formatDateToJST, JS.format_Tokyo, JS.Date_utc.
  apply Z.mul_le_mono_nonneg_r; [discriminate|].
  apply Z.div_le_mono; [reflexivity|]. lia.
Qed.

(** X1. The cards under the chart show the last five records of the
    record set in reverse: the first five of the reversed list, all
    of them when there are five or fewer, taken from a copy (the
    record set itself is read, not reordered). *)
Theorem latest_cards (scoreData : list ScoreData) :
  Home.latest scoreData = firstn 5 (rev scoreData)
  /\ List.length (Home.latest scoreData) = Nat.min 5 (List.length scoreData)
  /\ ((List.length scoreData <= 5)%nat -> Home.latest scoreData = rev scoreData)
  /\ (forall item, In item (Home.latest scoreData) -> In item scoreData).
Proof.
  assert (Heq : Home.latest scoreData = firstn 5 (rev scoreData)).
  { unfold Home.latest, JS.Array_slice_last. now rewrite firstn_rev. }
  split; [exact Heq|]. split; [|split].
  - rewrite Heq, length_firstn, length_rev. reflexivity.
  - intros Hlen. rewrite Heq. apply firstn_all2. now rewrite length_rev.
  - intros item Hin. rewrite Heq in Hin. apply in_rev.
    rewrite <- (firstn_skipn 5 (rev scoreData)). apply in_or_app. now left.
Qed.

(** X2. In a browser whose zone is a fixed offset [tz] (no daylight
    saving time, as in Japan): in every state the live view reaches
    from its first render, whatever the fetches did, the record set
    is in ascending order of instant; a failure leaves it as it was
    and a success stores a sorted payload. *)
Theorem record_set_always_ascending (tz : Z) (fs : list Fetched) :
  ascending (Home.scoreData (Home.run tz Home.initial fs)).
Proof. apply Home_reachable_ascending. Qed.

(** X3. In a browser whose zone is a fixed offset [tz] (no daylight
    saving time, as in Japan): in every state the live view reaches,
    the cards are newest first, and they are the latest records there
    are; the record set is some older records followed by the cards
    in reverse, and no older record is later than a card. *)
Theorem latest_cards_newest_first (tz : Z) (fs : list Fetched) :
  let scoreData := Home.scoreData (Home.run tz Home.initial fs) in
  descending (Home.latest scoreData)
  /\ exists older,
       scoreData = older ++ rev (Home.latest scoreData)
       /\ Forall (fun o => Forall (fun item => instant o <= instant item)
                                  (Home.latest scoreData))
                 older.
Proof.
  cbv zeta. pose proof (Home_reachable_ascending tz fs) as Hasc.
  set (l := Home.scoreData (Home.run tz Home.initial fs)) in *.
  unfold Home.latest, JS.Array_slice_last.
  set (k := (List.length l - 5)%nat).
  rewrite <- (firstn_skipn k l) in Hasc.
  apply StronglySorted_app_inv in Hasc as (_ & Hnew & Hcross).
  split.
  - apply (StronglySorted_rev _ _ Hnew).
  - exists (firstn k l). rewrite rev_involutive. split.
    + symmetry. apply firstn_skipn.
    + eapply Forall_impl; [|exact Hcross].
      intros o Ho. now apply Forall_rev.
Qed.

Lemma map_mono_sorted (f : ScoreData -> Z) (l : list ScoreData) :
  (forall a b, instant a <= instant b -> f a <= f b) ->
  ascending l -> StronglySorted Z.le (map f l).
Proof.
  intros Hf. induction 1 as [|x l Hl IH Hx]; simpl; constructor; [exact IH|].
  apply Forall_map. eapply Forall_impl; [|exact Hx]. intros y. apply Hf.
Qed.

(** X4. In a browser whose zone is a fixed offset [tz] (no daylight
    saving time, as in Japan): in every state the live view reaches,
    the chart's labels (the Tokyo wall clocks of the records) never
    go back in time.  In any browser both series have one entry per
    label. *)
Theorem chart_labels_in_order (tz : Z) (fs : list Fetched) :
  let chart := Home.chartData (Home.scoreData (Home.run tz Home.initial fs)) in
  StronglySorted Z.le (Home.labels chart)
  /\ Forall (fun series => List.length series = List.length (Home.labels chart))
            (Home.datasets chart).
Proof.
  cbv zeta. split.
  - simpl. apply map_mono_sorted; [|apply Home_reachable_ascending].
    intros a b Hab. now apply formatDateToJST_mono.
  - simpl. unfold Home.funData, Home.tiredData.
    repeat constructor; now rewrite !length_map.
Qed.

(** X5. Last write wins: after any history of the live view, the
    record set is the sorted payload of the most recent successful
    fetch, however many failed fetches settled after it. *)
Theorem last_success_wins
    (tz : Z) (st : Home.State) (fs fs' : list Fetched) (f : Fetched) :
  succeeds f = true ->
  forallb (fun g => negb (succeeds g)) fs' = true ->
  Home.scoreData (Home.run tz st (fs ++ f :: fs'))
  = JS.Array_sort (Home.byCreatedAt tz) (payload f).
Proof.
  intros Hf Hfs'. rewrite Home_run_app. simpl.
  set (st1 := Home.run tz st fs).
  assert (H1 : Home.scoreData (Home.fetchCycle tz st1 f)
               = JS.Array_sort (Home.byCreatedAt tz) (payload f))
    by (rewrite Home_fetchCycle_eq, Hf; reflexivity).
  revert H1. generalize (Home.fetchCycle tz st1 f). clear st1.
  induction fs' as [|g fs' IH]; intros st2 H2; simpl; [exact H2|].
  simpl in Hfs'. apply andb_true_iff in Hfs' as [Hg Hfs'].
  apply IH; [exact Hfs'|]. rewrite Home_fetchCycle_eq.
  apply negb_true_iff in Hg. rewrite Hg. exact H2.
Qed.

Lemma last_success_wins_witness :
  let early := mkScoreData (JS.wall 2024 10 5 9 0 0) 1 10 in
  let late := mkScoreData (JS.wall 2024 10 5 10 0 0) 2 (-5) in
  let down := Rejected (JS.ErrorObject "Failed to fetch") in
  succeeds (okFetch [late; early]) = true
  /\ forallb (fun g => negb (succeeds g)) [down; down] = true
  /\ Home.scoreData (Home.run JS.jst Home.initial
                       ([okFetch [early]] ++ okFetch [late; early] :: [down; down]))
     = [early; late].
Proof.
  cbv zeta. split; [reflexivity|]. split; [reflexivity|].
  apply (last_success_wins JS.jst Home.initial
           [okFetch [mkScoreData (JS.wall 2024 10 5 9 0 0) 1 10]]
           [Rejected (JS.ErrorObject "Failed to fetch");
            Rejected (JS.ErrorObject "Failed to fetch")]
           (okFetch [mkScoreData (JS.wall 2024 10 5 10 0 0) 2 (-5);
                     mkScoreData (JS.wall 2024 10 5 9 0 0) 1 10])
           eq_refl eq_refl).
Defined.

(** X6. The message on screen is that of the most recent failure:
    after any history of the live view, the error state holds the
    message of the last fetch that failed, however many successful
    fetches settled after it. *)
Theorem last_failure_message
    (tz : Z) (st : Home.State) (fs fs' : list Fetched) (f : Fetched) :
  succeeds f = false ->
  forallb succeeds fs' = true ->
  Home.error (Home.run tz st (fs ++ f :: fs')) = Some (failureMessage f).
Proof.
  intros Hf Hfs'. rewrite Home_run_app. simpl.
  set (st1 := Home.run tz st fs).
  assert (H1 : Home.error (Home.fetchCycle tz st1 f) = Some (failureMessage f))
    by (rewrite Home_fetchCycle_eq, Hf; reflexivity).
  revert H1. generalize (Home.fetchCycle tz st1 f). clear st1.
  induction fs' as [|g fs' IH]; intros st2 H2; simpl; [exact H2|].
  simpl in Hfs'. apply andb_true_iff in Hfs' as [Hg Hfs'].
  apply IH; [exact Hfs'|]. rewrite Home_fetchCycle_eq, Hg. exact H2.
Qed.

Lemma last_failure_message_witness :
  let r := mkScoreData (JS.wall 2024 10 5 9 0 0) 1 10 in
  let down := Rejected (JS.ErrorObject "Failed to fetch") in
  let bad := Resolved {| ok := false; json := JsonThrows JS.OtherValue |} in
  succeeds bad = false
  /\ forallb succeeds [okFetch [r]; okFetch []] = true
  /\ Home.error (Home.run JS.jst Home.initial
                   ([down] ++ bad :: [okFetch [r]; okFetch []]))
     = Some msgFetchFailed.
Proof.
  cbv zeta. split; [reflexivity|]. split; [reflexivity|].
  apply (last_failure_message JS.jst Home.initial
           [Rejected (JS.ErrorObject "Failed to fetch")]
           [okFetch [mkScoreData (JS.wall 2024 10 5 9 0 0) 1 10]; okFetch []]
           (Resolved {| ok := false; json := JsonThrows JS.OtherValue |})
           eq_refl eq_refl).
Defined.

(** ** The totals as a function of the records *)

Lemma funScores_perm (l l' : list ScoreData) :
  Permutation l l' -> Zsum (funScores l) = Zsum (funScores l').
Proof.
  unfold funScores.
  induction 1 as [|x l l' _ IH|x y l|l l' l'' _ IH1 _ IH2]; simpl.
  - reflexivity.
  - destruct (0 <=? score x); simpl; lia.
  - destruct (0 <=? score x), (0 <=? score y); simpl; lia.
  - lia.
Qed.

Lemma tiredScores_perm (l l' : list ScoreData) :
  Permutation l l' -> Zsum (tiredScores l) = Zsum (tiredScores l').
Proof.
  unfold tiredScores.
  induction 1 as [|x l l' _ IH|x y l|l l' l'' _ IH1 _ IH2]; simpl.
  - reflexivity.
  - destruct (score x <? 0); simpl; lia.
  - destruct (score x <? 0), (score y <? 0); simpl; lia.
  - lia.
Qed.

Lemma funScores_nonneg (l : list ScoreData) : 0 <= Zsum (funScores l).
Proof.
  unfold funScores. induction l as [|x l IH]; simpl; [lia|].
  destruct (Z.leb_spec 0 (score x)); simpl; lia.
Qed.

Lemma tiredScores_nonneg (l : list ScoreData) : 0 <= Zsum (tiredScores l).
Proof.
  unfold tiredScores. induction l as [|x l IH]; simpl; [lia|].
  destruct (Z.ltb_spec (score x) 0); simpl; lia.
Qed.

Lemma funScores_filter_le (p : ScoreData -> bool) (l : list ScoreData) :
  Zsum (funScores (filter p l)) <= Zsum (funScores l).
Proof.
  unfold funScores. induction l as [|x l IH]; simpl; [lia|].
  destruct (p x); simpl; destruct (Z.leb_spec 0 (score x)); simpl; lia.
Qed.

Lemma tiredScores_filter_le (p : ScoreData -> bool) (l : list ScoreData) :
  Zsum (tiredScores (filter p l)) <= Zsum (tiredScores l).
Proof.
  unfold tiredScores. induction l as [|x l IH]; simpl; [lia|].
  destruct (p x); simpl; destruct (Z.ltb_spec (score x) 0); simpl; lia.
Qed.

Lemma totals_sum_abs (l : list ScoreData) :
  Zsum (funScores l) + Zsum (tiredScores l)
  = Zsum (map (fun item => Z.abs (score item)) l).
Proof.
  unfold funScores, tiredScores. induction l as [|x l IH]; simpl; [reflexivity|].
  destruct (Z.leb_spec 0 (score x)); destruct (Z.ltb_spec (score x) 0);
    try lia; simpl; lia.
Qed.

(** X7. The totals do not depend on the order of the records: two
    record sets that are permutations of each other give the same
    [fun] and [tired]. *)
Theorem totals_order_independent (l l' : list ScoreData) :
  Permutation l l' -> reduceTotals l = reduceTotals l'.
Proof.
  intros Hp. rewrite !reduceTotals_closed.
  now rewrite (funScores_perm l l' Hp), (tiredScores_perm l l' Hp).
Qed.

Lemma totals_order_independent_witness :
  let a := mkScoreData (JS.wall 2024 10 5 9 0 0) 1 10 in
  let b := mkScoreData (JS.wall 2024 10 5 10 0 0) 2 (-5) in
  let c := mkScoreData (JS.wall 2024 10 5 11 0 0) 3 7 in
  Permutation [c; a; b] (JS.Array_sort (Home.byCreatedAt JS.jst) [c; a; b])
  /\ reduceTotals [c; a; b] = reduceTotals [a; b; c].
Proof.
  cbv zeta. split; [apply Array_sort_perm|].
  apply (totals_order_independent
           [mkScoreData (JS.wall 2024 10 5 11 0 0) 3 7;
            mkScoreData (JS.wall 2024 10 5 9 0 0) 1 10;
            mkScoreData (JS.wall 2024 10 5 10 0 0) 2 (-5)]
           (JS.Array_sort (Home.byCreatedAt JS.jst)
              [mkScoreData (JS.wall 2024 10 5 11 0 0) 3 7;
               mkScoreData (JS.wall 2024 10 5 9 0 0) 1 10;
               mkScoreData (JS.wall 2024 10 5 10 0 0) 2 (-5)])).
  apply Array_sort_perm.
Defined.

(** X8. The chart and the totals agree: over the same records, the
    numbers of the [fun] series add up to [totalData.fun] and those of
    the [tired] series to [totalData.tired]; the records with score 0,
    null in the series and counted on the [fun] side of the totals,
    make no difference. *)
Theorem series_sum_to_totals (scoreData : list ScoreData) :
  presentSum (Home.funData scoreData) = fun_ (reduceTotals scoreData)
  /\ presentSum (Home.tiredData scoreData) = tired (reduceTotals scoreData).
Proof.
  rewrite reduceTotals_closed. simpl.
  unfold presentSum, Home.funData, Home.tiredData, funScores, tiredScores.
  split; induction scoreData as [|x l IH]; simpl; try reflexivity.
  - destruct (Z.ltb_spec 0 (score x)); destruct (Z.leb_spec 0 (score x));
      simpl; lia.
  - destruct (Z.ltb_spec (score x) 0); simpl; lia.
Qed.

(** X9. The two slices of the pie are never negative, and together
    they are the sum of [abs score] over the records the page counts
    (all of them without a filter, the filtered ones otherwise), in
    the three totals pages. *)
Theorem pie_slices
    (plain : TotalPlain.State) (pst : TotalPage.State)
    (rst : TotalReactive.State) :
  (Forall (fun v => 0 <= v) (TotalPlain.pieData plain)
   /\ Zsum (TotalPlain.pieData plain)
      = Zsum (map (fun item => Z.abs (score item)) (TotalPlain.scoreData plain)))
  /\ (Forall (fun v => 0 <= v) (TotalPage.pieData pst)
      /\ Zsum (TotalPage.pieData pst)
         = Zsum (map (fun item => Z.abs (score item))
                     (TotalPage.filteredData pst)))
  /\ (Forall (fun v => 0 <= v) (TotalReactive.pieData rst)
      /\ Zsum (TotalReactive.pieData rst)
         = Zsum (map (fun item => Z.abs (score item))
                     (TotalReactive.filteredData rst))).
Proof.
  unfold TotalPlain.pieData, TotalPlain.totalData,
    TotalPage.pieData, TotalPage.totalData,
    TotalReactive.pieData, TotalReactive.totalData.
  rewrite !reduceTotals_closed. simpl.
  repeat split;
    try (repeat constructor;
         (apply funScores_nonneg || apply tiredScores_nonneg));
    rewrite <- totals_sum_abs; lia.
Qed.

(** ** The filtered list over a run of the totals pages *)

Lemma filter_all {A : Type} (l : list A) : filter (fun _ => true) l = l.
Proof. induction l as [|x l IH]; simpl; [reflexivity | now rewrite IH]. Qed.

Lemma TotalPage_step_filtered (tz : Z) (st : TotalPage.State)
    (ev : TotalPage.Event) :
  (exists p, TotalPage.filteredData st = filter p (TotalPage.scoreData st)) ->
  exists p, TotalPage.filteredData (TotalPage.step tz st ev)
            = filter p (TotalPage.scoreData (TotalPage.step tz st ev)).
Proof.
  intros Hst. destruct ev as [f| | | | |]; try exact Hst.
  - rewrite TotalPage_fetch_eq. destruct (succeeds f); [|exact Hst].
    exists (fun _ => true). simpl. now rewrite filter_all.
  - unfold TotalPage.step, TotalPage.handle, TotalPage.applyDateFilter.
    destruct (TotalPage.startDate st) as [sd|];
      [destruct (TotalPage.endDate st) as [ed|]|]; try exact Hst.
    simpl. now eexists.
Qed.

Lemma TotalPage_run_filtered (tz : Z) (evs : list TotalPage.Event)
    (st : TotalPage.State) :
  (exists p, TotalPage.filteredData st = filter p (TotalPage.scoreData st)) ->
  exists p, TotalPage.filteredData (TotalPage.run tz st evs)
            = filter p (TotalPage.scoreData (TotalPage.run tz st evs)).
Proof.
  revert st. induction evs as [|ev evs IH]; intros st Hst; simpl; [exact Hst|].
  now apply IH, TotalPage_step_filtered.
Qed.

Lemma TotalReactive_effect_filtered (tz : Z) (st : TotalReactive.State) :
  (exists p, TotalReactive.filteredData st
             = filter p (TotalReactive.scoreData st)) ->
  let st' := fold_left TotalReactive.apply (TotalReactive.filterEffect tz st) st in
  exists p, TotalReactive.filteredData st'
            = filter p (TotalReactive.scoreData st').
Proof.
  intros Hst. cbv zeta. unfold TotalReactive.filterEffect.
  destruct (TotalReactive.startDate st) as [sd|];
    [destruct (TotalReactive.endDate st) as [ed|]|]; try exact Hst.
  simpl. now eexists.
Qed.

Lemma TotalReactive_step_filtered (tz : Z) (st : TotalReactive.State)
    (ev : TotalReactive.Event) :
  (exists p, TotalReactive.filteredData st
             = filter p (TotalReactive.scoreData st)) ->
  exists p, TotalReactive.filteredData (TotalReactive.step tz st ev)
            = filter p (TotalReactive.scoreData (TotalReactive.step tz st ev)).
Proof.
  intros Hst.
  assert (Hh : exists p,
             TotalReactive.filteredData
               (fold_left TotalReactive.apply (TotalReactive.handle ev) st)
             = filter p (TotalReactive.scoreData
                           (fold_left TotalReactive.apply
                                      (TotalReactive.handle ev) st))).
  { destruct ev as [f| | | |]; try exact Hst.
    simpl. rewrite TotalReactive_fetchData_eq.
    destruct (succeeds f); [|exact Hst].
    exists (fun _ => true). simpl. now rewrite filter_all. }
  unfold TotalReactive.step. cbv zeta.
  destruct (TotalReactive.depsChanged _ _ _); [|exact Hh].
  now apply TotalReactive_effect_filtered.
Qed.

Lemma TotalReactive_run_filtered (tz : Z) (evs : list TotalReactive.Event)
    (st : TotalReactive.State) :
  (exists p, TotalReactive.filteredData st
             = filter p (TotalReactive.scoreData st)) ->
  exists p, TotalReactive.filteredData (TotalReactive.run tz st evs)
            = filter p (TotalReactive.scoreData (TotalReactive.run tz st evs)).
Proof.
  revert st. induction evs as [|ev evs IH]; intros st Hst; simpl; [exact Hst|].
  now apply IH, TotalReactive_step_filtered.
Qed.

(** X10. In every state either filtering totals page reaches, after
    any fetches, range changes and clicks, the records counted are
    some of the records of the current record set, each at most once:
    so neither total exceeds the total over the whole record set. *)
Theorem filtered_totals_bounded
    (tz : Z) (today : JS.Day)
    (pevs : list TotalPage.Event) (revs : list TotalReactive.Event) :
  (let st := TotalPage.run tz (TotalPage.initial today) pevs in
   (exists p, TotalPage.filteredData st = filter p (TotalPage.scoreData st))
   /\ fun_ (TotalPage.totalData st) <= fun_ (reduceTotals (TotalPage.scoreData st))
   /\ tired (TotalPage.totalData st)
      <= tired (reduceTotals (TotalPage.scoreData st)))
  /\ (let st := TotalReactive.run tz (TotalReactive.mount tz today) revs in
      (exists p, TotalReactive.filteredData st
                 = filter p (TotalReactive.scoreData st))
      /\ fun_ (TotalReactive.totalData st)
         <= fun_ (reduceTotals (TotalReactive.scoreData st))
      /\ tired (TotalReactive.totalData st)
         <= tired (reduceTotals (TotalReactive.scoreData st))).
Proof.
  cbv zeta. split.
  - destruct (TotalPage_run_filtered tz pevs (TotalPage.initial today))
      as [p Hp]; [now exists (fun _ => true)|].
    split; [now exists p|].
    unfold TotalPage.totalData. rewrite Hp, !reduceTotals_closed. simpl.
    split; [apply funScores_filter_le | apply tiredScores_filter_le].
  - destruct (TotalReactive_run_filtered tz revs (TotalReactive.mount tz today))
      as [p Hp].
    { apply (TotalReactive_effect_filtered tz (TotalReactive.initial today)).
      now exists (fun _ => true). }
    split; [now exists p|].
    unfold TotalReactive.totalData. rewrite Hp, !reduceTotals_closed. simpl.
    split; [apply funScores_filter_le | apply tiredScores_filter_le].
Qed.

Lemma fetch_then_filter_aux
    (tz : Z) (pst : TotalPage.State) (rst : TotalReactive.State)
    (f : Fetched) (sd ed : JS.Day) :
  succeeds f = true ->
  TotalReactive.startDate rst = Some sd ->
  TotalReactive.endDate rst = Some ed ->
  TotalPage.filteredData (TotalPage.step tz pst (TotalPage.FetchSettled f))
  = payload f
  /\ TotalReactive.filteredData
       (TotalReactive.step tz rst (TotalReactive.FetchSettled f))
     = filter (TotalReactive.inRange tz sd ed (TotalReactive.startTime rst)
                                     (TotalReactive.endTime rst))
              (payload f).
Proof.
  intros Hf Hsd Hed. split.
  - rewrite TotalPage_fetch_eq, Hf. reflexivity.
  - unfold TotalReactive.step, TotalReactive.depsChanged. cbv zeta.
    simpl TotalReactive.handle. rewrite TotalReactive_fetchData_eq, Hf.
    simpl existsb. rewrite orb_true_r.
    unfold TotalReactive.filterEffect. simpl. rewrite Hsd, Hed. reflexivity.
Qed.

(** X11. What a successful fetch leaves in [filteredData]: in
    [app/total/page.tsx] all the records of the payload, whatever
    range the controls show (the range counts only once the button is
    clicked); in the reactive page the records of the payload within
    the range of the controls. *)
Theorem fetch_then_filter
    (tz : Z) (pst : TotalPage.State) (rst : TotalReactive.State)
    (f : Fetched) (sd ed : JS.Day) :
  succeeds f = true ->
  TotalReactive.startDate rst = Some sd ->
  TotalReactive.endDate rst = Some ed ->
  TotalPage.filteredData (TotalPage.step tz pst (TotalPage.FetchSettled f))
  = payload f
  /\ TotalReactive.filteredData
       (TotalReactive.step tz rst (TotalReactive.FetchSettled f))
     = filter (TotalReactive.inRange tz sd ed (TotalReactive.startTime rst)
                                     (TotalReactive.endTime rst))
              (payload f).
Proof. apply fetch_then_filter_aux. Qed.

Lemma fetch_then_filter_witness :
  let today := JS.days_from_civil 2024 10 5 in
  let old := mkScoreData (JS.wall 2024 10 1 3 0 0) 1 10 in
  let new := mkScoreData (JS.wall 2024 10 5 3 0 0) 2 (-5) in
  let f := okFetch [old; new] in
  succeeds f = true
  /\ TotalPage.totalData
       (TotalPage.step JS.jst (TotalPage.initial today) (TotalPage.FetchSettled f))
     = {| fun_ := 10; tired := 5 |}
  /\ TotalReactive.totalData
       (TotalReactive.step JS.jst (TotalReactive.mount JS.jst today)
          (TotalReactive.FetchSettled f))
     = {| fun_ := 0; tired := 5 |}.
Proof.
  cbv zeta.
  destruct (fetch_then_filter JS.jst
              (TotalPage.initial (JS.days_from_civil 2024 10 5))
              (TotalReactive.mount JS.jst (JS.days_from_civil 2024 10 5))
              (okFetch [mkScoreData (JS.wall 2024 10 1 3 0 0) 1 10;
                        mkScoreData (JS.wall 2024 10 5 3 0 0) 2 (-5)])
              (JS.days_from_civil 2024 10 5) (JS.days_from_civil 2024 10 5)
              eq_refl eq_refl eq_refl) as [Hp Hr].
  split; [reflexivity|]. split.
  - unfold TotalPage.totalData. rewrite Hp. reflexivity.
  - unfold TotalReactive.totalData. rewrite Hr. reflexivity.
Defined.

(** X12. Clicking the filter button twice is clicking it once: the
    button filters the record set, not what an earlier click left. *)
Theorem apply_twice (tz : Z) (st : TotalPage.State) :
  TotalPage.step tz (TotalPage.step tz st TotalPage.ClickApply)
                 TotalPage.ClickApply
  = TotalPage.step tz st TotalPage.ClickApply.
Proof.
  destruct st as [R fd l e [sd|] [ed|] tr]; reflexivity.
Qed.

(** X13. An empty date switches the filter off without clearing it:
    with either date input empty, the button of [app/total/page.tsx]
    changes nothing, and in the reactive page emptying a date leaves
    [filteredData], and so the totals on screen, as they were. *)
Theorem empty_date_keeps_filtered
    (tz : Z) (pst : TotalPage.State) (rst : TotalReactive.State) :
  TotalPage.startDate pst = None \/ TotalPage.endDate pst = None ->
  TotalPage.step tz pst TotalPage.ClickApply = pst
  /\ TotalReactive.filteredData
       (TotalReactive.step tz rst (TotalReactive.ChangeStartDate None))
     = TotalReactive.filteredData rst
  /\ TotalReactive.filteredData
       (TotalReactive.step tz rst (TotalReactive.ChangeEndDate None))
     = TotalReactive.filteredData rst.
Proof.
  intros Hempty. split; [|split].
  - unfold TotalPage.step, TotalPage.handle, TotalPage.applyDateFilter.
    destruct Hempty as [-> | ->]; [reflexivity|].
    destruct (TotalPage.startDate pst); reflexivity.
  - unfold TotalReactive.step. cbv zeta.
    destruct (TotalReactive.depsChanged _ _ _); reflexivity.
  - unfold TotalReactive.step. cbv zeta.
    destruct (TotalReactive.depsChanged _ _ _); [|reflexivity].
    unfold TotalReactive.filterEffect. simpl.
    destruct (TotalReactive.startDate rst); reflexivity.
Qed.

Lemma empty_date_keeps_filtered_witness :
  let r := mkScoreData (JS.wall 2024 10 1 3 0 0) 1 10 in
  let pst := TotalPage.mkState [r] [] false None None
               (Some (JS.days_from_civil 2024 10 1)) (0, 23) in
  TotalPage.startDate pst = None
  /\ TotalPage.totalData (TotalPage.step JS.jst pst TotalPage.ClickApply)
     = {| fun_ := 0; tired := 0 |}.
Proof.
  cbv zeta. split; [reflexivity|].
  destruct (empty_date_keeps_filtered JS.jst
              (TotalPage.mkState [mkScoreData (JS.wall 2024 10 1 3 0 0) 1 10]
                 [] false None None
                 (Some (JS.days_from_civil 2024 10 1)) (0, 23))
              (TotalReactive.initial 0) (or_introl eq_refl)) as [Hsame _].
  rewrite Hsame. reflexivity.
Defined.

(** ** The ranges of the two filters *)

Lemma reactive_range_whole_hours_aux
    (sd ed : JS.Day) (h0 h1 : Z) (item : ScoreData) :
  0 <= h0 <= 23 -> 0 <= h1 <= 23 ->
  TotalReactive.inRange JS.jst sd ed h0 h1 item = true
  <-> sd * JS.msPerDay + h0 * JS.msPerHour
      <= instant item + JS.jst * JS.msPerMinute
      /\ instant item + JS.jst * JS.msPerMinute
         < ed * JS.msPerDay + (h1 + 1) * JS.msPerHour.
Proof.
  intros H0 H1. rewrite reactive_inRange_spec by assumption.
  unfold startInstant, endInstant, JS.jst, JS.msPerDay, JS.msPerHour,
    JS.msPerMinute, JS.msPerSecond.
  Z.div_mod_to_equations. lia.
Qed.



(** X15. In a browser at UTC+9 the hour ranges of the reactive filter
    tile the day: splitting a range of one day at an hour gives two
    ranges that keep, between them, exactly what the whole range
    keeps, and no record twice. *)
Theorem reactive_hours_tile (d : JS.Day) (h0 h h1 : Z) (item : ScoreData) :
  0 <= h0 <= h -> h < h1 <= 23 ->
  TotalReactive.inRange JS.jst d d h0 h1 item
  = TotalReactive.inRange JS.jst d d h0 h item
    || TotalReactive.inRange JS.jst d d (h + 1) h1 item
  /\ TotalReactive.inRange JS.jst d d h0 h item
     && TotalReactive.inRange JS.jst d d (h + 1) h1 item = false.
Proof.
  intros H0 H1.
  pose proof (reactive_range_whole_hours_aux d d h0 h1 item ltac:(lia) ltac:(lia))
    as Hw.
  pose proof (reactive_range_whole_hours_aux d d h0 h item ltac:(lia) ltac:(lia))
    as Ha.
  pose proof (reactive_range_whole_hours_aux d d (h + 1) h1 item
                ltac:(lia) ltac:(lia)) as Hb.
  unfold JS.msPerHour in *.
  destruct (TotalReactive.inRange JS.jst d d h0 h1 item);
    destruct (TotalReactive.inRange JS.jst d d h0 h item);
    destruct (TotalReactive.inRange JS.jst d d (h + 1) h1 item);
    simpl; split; try reflexivity; exfalso;
    repeat match goal with
           | H : true = true <-> _ |- _ =>
               pose proof (proj1 H eq_refl); clear H
           | H : false = true <-> ?P |- _ =>
               assert (~ P) by (intros HP; apply H in HP; discriminate);
               clear H
           end; lia.
Qed.

Lemma reactive_hours_tile_witness :
  let d := JS.days_from_civil 2024 10 5 in
  let item := mkScoreData (JS.wall 2024 10 5 3 59 59 + 999) 1 10 in
  0 <= 9 <= 12 /\ 12 < 18 <= 23
  /\ TotalReactive.inRange JS.jst d d 9 12 item = true
  /\ TotalReactive.inRange JS.jst d d 13 18 item = false
  /\ TotalReactive.inRange JS.jst d d 9 18 item = true.
Proof.
  cbv zeta. split; [lia|]. split; [lia|].
  destruct (reactive_hours_tile (JS.days_from_civil 2024 10 5) 9 12 18
              (mkScoreData (JS.wall 2024 10 5 3 59 59 + 999) 1 10)
              ltac:(lia) ltac:(lia)) as [Hsplit _].
  split; [reflexivity|]. split; [reflexivity|].
  rewrite Hsplit. reflexivity.
Defined.

(** X16. In a browser whose zone is a fixed offset [tz] (no daylight
    saving time, as in Japan), and for a date with a year of four
    digits: the button's filter of [app/total/page.tsx] ends a range
    at HH:59:00; a record in the rest of the last minute of an hour is
    kept by a range that runs over that hour into the next, and by
    neither of the two ranges it splits into at that hour. *)
Theorem page_last_minute_gap
    (tz : Z) (d : JS.Day) (h0 h h1 : Z) (item : ScoreData) :
  0 <= h0 <= h -> h < h1 <= 23 ->
  d * JS.msPerDay + h * JS.msPerHour + 59 * JS.msPerMinute < created_at item ->
  created_at item < d * JS.msPerDay + (h + 1) * JS.msPerHour ->
  TotalPage.inRange tz d d (h0, h1) item = true
  /\ TotalPage.inRange tz d d (h0, h) item = false
  /\ TotalPage.inRange tz d d (h + 1, h1) item = false.
Proof.
  intros H0 H1 Hlo Hhi.
  pose proof (page_inRange_spec tz d d h0 h1 item ltac:(lia) ltac:(lia)) as Hw.
  pose proof (page_inRange_spec tz d d h0 h item ltac:(lia) ltac:(lia)) as Ha.
  pose proof (page_inRange_spec tz d d (h + 1) h1 item ltac:(lia) ltac:(lia))
    as Hb.
  unfold JS.msPerDay, JS.msPerHour, JS.msPerMinute in *.
  split; [apply Hw; lia|]. split.
  - destruct (TotalPage.inRange tz d d (h0, h) item); [|reflexivity].
    pose proof (proj1 Ha eq_refl). lia.
  - destruct (TotalPage.inRange tz d d (h + 1, h1) item); [|reflexivity].
    pose proof (proj1 Hb eq_refl). lia.
Qed.

Lemma page_last_minute_gap_witness :
  let d := JS.days_from_civil 2024 10 5 in
  let item := mkScoreData (JS.wall 2024 10 5 12 59 30) 1 10 in
  0 <= 9 <= 12 /\ 12 < 18 <= 23
  /\ JS.wall 2024 10 5 12 59 0 < created_at item
  /\ created_at item < JS.wall 2024 10 5 13 0 0
  /\ TotalPage.inRange JS.jst d d (9, 18) item = true
  /\ TotalPage.inRange JS.jst d d (9, 12) item = false
  /\ TotalPage.inRange JS.jst d d (13, 18) item = false.
Proof.
  cbv zeta. split; [lia|]. split; [lia|].
  split; [reflexivity|]. split; [reflexivity|].
  apply (page_last_minute_gap JS.jst (JS.days_from_civil 2024 10 5) 9 12 18
           (mkScoreData (JS.wall 2024 10 5 12 59 30) 1 10)
           ltac:(lia) ltac:(lia) eq_refl eq_refl).
Defined.

(** X17. The default range is a day of UTC, not of Tokyo: the date
    inputs start at [toISOString().slice(0, 10)] of the moment the page
    opens.  In a browser at UTC+9, a record created at the very moment
    the reactive page opens is counted after the first load iff that
    moment is before 15:00 UTC, that is from 09:00 on in Tokyo; from
    midnight to 09:00 in Tokyo the default day is still yesterday's. *)
Theorem default_day_is_utc (now i s : Z) :
  let item := mkScoreData now i s in
  let st := TotalReactive.step JS.jst
              (TotalReactive.mount JS.jst (JS.toISOString_date now))
              (TotalReactive.FetchSettled (okFetch [item])) in
  TotalReactive.filteredData st
  = if now mod JS.msPerDay <? 15 * JS.msPerHour then [item] else [].
Proof.
  cbv zeta.
  rewrite (proj2 (fetch_then_filter_aux JS.jst (TotalPage.initial 0)
                    (TotalReactive.mount JS.jst (JS.toISOString_date now))
                    (okFetch [mkScoreData now i s])
                    (JS.toISOString_date now) (JS.toISOString_date now)
                    eq_refl eq_refl eq_refl)).
  simpl.
  pose proof (reactive_range_whole_hours_aux
                (JS.toISOString_date now) (JS.toISOString_date now) 0 23
                (mkScoreData now i s) ltac:(lia) ltac:(lia)) as Hw.
  unfold JS.toISOString_date, instant, JS.Date_utc, JS.jst, JS.msPerDay,
    JS.msPerHour, JS.msPerMinute in *. simpl created_at in Hw.
  match goal with
  | |- context [?a <? ?b] => destruct (Z.ltb_spec a b) as [Hlt|Hge]
  end.
  - replace (TotalReactive.inRange 540 (now / 86400000) (now / 86400000) 0 23
               (mkScoreData now i s)) with true; [reflexivity|].
    symmetry. apply Hw. Z.div_mod_to_equations. lia.
  - destruct (TotalReactive.inRange 540 (now / 86400000) (now / 86400000) 0 23
                (mkScoreData now i s)); [|reflexivity].
    pose proof (proj1 Hw eq_refl). exfalso. Z.div_mod_to_equations. lia.
Qed.



Lemma leb_cancel (a b t : Z) : (a - t <=? b - t) = (a <=? b).
Proof.
  destruct (Z.leb_spec a b); [apply Z.leb_le | apply Z.leb_gt]; lia.
Qed.

(** X19. Among browsers whose zone is a fixed offset (no daylight
    saving time), the button's filter of [app/total/page.tsx] gives
    the same answer whatever the offset: the record's timestamp and
    the two boundaries are all read at that offset, and it cancels,
    so a browser in Japan and one at UTC keep the same records.  (In
    a zone with daylight saving time a reading in the skipped hour is
    moved and the answer can differ: not covered here.) *)
Theorem page_filter_zone_free
    (tz tz' : Z) (sd ed : JS.Day) (timeRange : Z * Z) (item : ScoreData) :
  TotalPage.inRange tz sd ed timeRange item
  = TotalPage.inRange tz' sd ed timeRange item.
Proof.
  unfold TotalPage.inRange, JS.Date_iso, JS.Date_local.
  destruct (JS.valid_time (fst timeRange) 0 0);
    destruct (JS.valid_time (snd timeRange) 59 0); simpl;
    rewrite ?leb_cancel; reflexivity.
Qed.

(** ** Errors in the reactive totals page *)

Lemma TotalReactive_effect_frame (tz : Z) (st : TotalReactive.State) :
  let st' := fold_left TotalReactive.apply (TotalReactive.filterEffect tz st) st in
  TotalReactive.error st' = TotalReactive.error st
  /\ TotalReactive.loading st' = TotalReactive.loading st
  /\ TotalReactive.scoreData st' = TotalReactive.scoreData st.
Proof.
  cbv zeta. unfold TotalReactive.filterEffect.
  destruct (TotalReactive.startDate st), (TotalReactive.endDate st);
    repeat split.
Qed.

Lemma TotalReactive_step_error (tz : Z) (st : TotalReactive.State)
    (ev : TotalReactive.Event) :
  TotalReactive.error (TotalReactive.step tz st ev)
  = match ev with
    | TotalReactive.FetchSettled f =>
        if succeeds f then TotalReactive.error st else Some (failureMessage f)
    | _ => TotalReactive.error st
    end.
Proof.
  unfold TotalReactive.step. cbv zeta.
  assert (Hh : TotalReactive.error
                 (fold_left TotalReactive.apply (TotalReactive.handle ev) st)
               = match ev with
                 | TotalReactive.FetchSettled f =>
                     if succeeds f then TotalReactive.error st
                     else Some (failureMessage f)
                 | _ => TotalReactive.error st
                 end).
  { destruct ev as [f| | | |]; try reflexivity.
    simpl. rewrite TotalReactive_fetchData_eq.
    destruct (succeeds f); reflexivity. }
  destruct (TotalReactive.depsChanged _ _ _); [|exact Hh].
  rewrite (proj1 (TotalReactive_effect_frame tz _)). exact Hh.
Qed.

Lemma TotalReactive_step_loading (tz : Z) (st : TotalReactive.State)
    (ev : TotalReactive.Event) :
  TotalReactive.loading st = false ->
  TotalReactive.loading (TotalReactive.step tz st ev) = false.
Proof.
  intros Hl. unfold TotalReactive.step. cbv zeta.
  assert (Hh : TotalReactive.loading
                 (fold_left TotalReactive.apply (TotalReactive.handle ev) st)
               = false).
  { destruct ev as [f| | | |]; try exact Hl.
    simpl. rewrite TotalReactive_fetchData_eq.
    destruct (succeeds f); reflexivity. }
  destruct (TotalReactive.depsChanged _ _ _); [|exact Hh].
  rewrite (proj1 (proj2 (TotalReactive_effect_frame tz _))). exact Hh.
Qed.

Lemma TotalReactive_fetch_loading (tz : Z) (st : TotalReactive.State)
    (f : Fetched) :
  TotalReactive.loading
    (TotalReactive.step tz st (TotalReactive.FetchSettled f)) = false.
Proof.
  unfold TotalReactive.step. cbv zeta.
  assert (Hh : TotalReactive.loading
                 (fold_left TotalReactive.apply
                            (TotalReactive.handle (TotalReactive.FetchSettled f))
                            st) = false).
  { simpl. rewrite TotalReactive_fetchData_eq.
    destruct (succeeds f); reflexivity. }
  destruct (TotalReactive.depsChanged _ _ _); [|exact Hh].
  rewrite (proj1 (proj2 (TotalReactive_effect_frame tz _))). exact Hh.
Qed.

(** X20. The error is sticky in the reactive totals page too: once a
    fetch has failed, the error state is never null again through any
    later fetch or change of the controls, the filtering effect
    included, and every render returns the error view (the messages
    not being empty), whatever the filter then computes behind it. *)
Theorem reactive_sticky_error
    (tz : Z) (rst : TotalReactive.State) (f : Fetched)
    (evs : list TotalReactive.Event) :
  succeeds f = false ->
  let st := TotalReactive.run tz
              (TotalReactive.step tz rst (TotalReactive.FetchSettled f)) evs in
  TotalReactive.error st <> None
  /\ (messageCarried f && forallb reactiveCarried evs = true ->
      exists msg, TotalReactive.error st = Some msg
                  /\ TotalReactive.render st = ErrorView msg).
Proof.
  intros Hf. cbv zeta.
  set (st0 := TotalReactive.step tz rst (TotalReactive.FetchSettled f)).
  assert (He0 : TotalReactive.error st0 = Some (failureMessage f))
    by (unfold st0; rewrite TotalReactive_step_error, Hf; reflexivity).
  assert (Hl0 : TotalReactive.loading st0 = false)
    by apply TotalReactive_fetch_loading.
  clearbody st0. split.
  - assert (Hne : TotalReactive.error st0 <> None) by (rewrite He0; discriminate).
    clear He0 Hl0. revert st0 Hne.
    induction evs as [|ev evs IH]; intros st0 Hne; simpl; [exact Hne|].
    apply IH. rewrite TotalReactive_step_error.
    destruct ev as [g| | | |]; try exact Hne.
    destruct (succeeds g); [exact Hne | discriminate].
  - intros Hall. apply andb_true_iff in Hall as [Hm Hevs].
    assert (Hinv : TotalReactive.loading st0 = false
                   /\ exists msg, TotalReactive.error st0 = Some msg
                                  /\ truthy msg = true).
    { split; [exact Hl0|]. eexists. split; [exact He0|].
      now apply truthy_failureMessage. }
    clear He0 Hl0. revert st0 Hinv.
    induction evs as [|ev evs IH]; intros st0 [Hl (msg & He & Ht)]; simpl.
    + exists msg. split; [exact He|].
      unfold TotalReactive.render. now rewrite Hl, He, Ht.
    + simpl in Hevs. apply andb_true_iff in Hevs as [Hev Hevs].
      apply IH; [exact Hevs|]. split.
      * now apply TotalReactive_step_loading.
      * rewrite TotalReactive_step_error.
        destruct ev as [g| | | |]; try (now exists msg).
        destruct (succeeds g); [now exists msg|].
        eexists. split; [reflexivity|]. now apply truthy_failureMessage.
Qed.

Lemma reactive_sticky_error_witness :
  let today := JS.days_from_civil 2024 10 5 in
  let r := mkScoreData (JS.wall 2024 10 5 3 0 0) 1 10 in
  let bad := Resolved {| ok := true;
                         json := Json {| data := []; status := "ERROR" |} |} in
  let st := TotalReactive.run JS.jst
              (TotalReactive.step JS.jst (TotalReactive.mount JS.jst today)
                 (TotalReactive.FetchSettled bad))
              [TotalReactive.FetchSettled (okFetch [r]);
               TotalReactive.ChangeStartTime 9] in
  succeeds bad = false
  /\ TotalReactive.totalData st = {| fun_ := 10; tired := 0 |}
  /\ TotalReactive.error st <> None
  /\ TotalReactive.render st = ErrorView msgBadStatus.
Proof.
  cbv zeta. split; [reflexivity|]. split; [reflexivity|].
  destruct (reactive_sticky_error JS.jst
              (TotalReactive.mount JS.jst (JS.days_from_civil 2024 10 5))
              (Resolved {| ok := true;
                           json := Json {| data := []; status := "ERROR" |} |})
              [TotalReactive.FetchSettled
                 (okFetch [mkScoreData (JS.wall 2024 10 5 3 0 0) 1 10]);
               TotalReactive.ChangeStartTime 9]
              eq_refl) as [Hset _].
  split; [exact Hset | reflexivity].
Defined.

(** ** Moving a control *)

(** X21. Moving the start-hour slider: in [app/total/page.tsx] the
    filtered list, and with it the totals, stay as they were until the
    button is clicked; in the reactive page, whose filtered list is in
    step with its controls, the list is at once the record set
    filtered at the new hour. *)
Theorem slider_moves
    (tz : Z) (pst : TotalPage.State) (rst : TotalReactive.State)
    (sd ed : JS.Day) (v : Z) :
  inStep tz rst ->
  TotalReactive.startDate rst = Some sd ->
  TotalReactive.endDate rst = Some ed ->
  TotalPage.filteredData (TotalPage.step tz pst (TotalPage.ChangeStartHour v))
  = TotalPage.filteredData pst
  /\ TotalReactive.filteredData
       (TotalReactive.step tz rst (TotalReactive.ChangeStartTime v))
     = filter (TotalReactive.inRange tz sd ed v (TotalReactive.endTime rst))
              (TotalReactive.scoreData rst).
Proof.
  intros Hin Hsd Hed. split; [reflexivity|].
  pose proof (step_inStep tz rst (TotalReactive.ChangeStartTime v) Hin) as Hs.
  unfold inStep in Hs.
  assert (Hf : forall st,
             TotalReactive.startDate
               (TotalReactive.step tz st (TotalReactive.ChangeStartTime v))
             = TotalReactive.startDate st
             /\ TotalReactive.endDate
                  (TotalReactive.step tz st (TotalReactive.ChangeStartTime v))
                = TotalReactive.endDate st
             /\ TotalReactive.startTime
                  (TotalReactive.step tz st (TotalReactive.ChangeStartTime v))
                = v
             /\ TotalReactive.endTime
                  (TotalReactive.step tz st (TotalReactive.ChangeStartTime v))
                = TotalReactive.endTime st
             /\ TotalReactive.scoreData
                  (TotalReactive.step tz st (TotalReactive.ChangeStartTime v))
                = TotalReactive.scoreData st).
  { intros st. unfold TotalReactive.step. cbv zeta.
    destruct (TotalReactive.depsChanged _ _ _); [|repeat split].
    unfold TotalReactive.filterEffect. simpl.
    destruct (TotalReactive.startDate st), (TotalReactive.endDate st);
      repeat split. }
  destruct (Hf rst) as (H1 & H2 & H3 & H4 & H5).
  rewrite H1, H2, H3, H4, H5, Hsd, Hed in Hs. exact Hs.
Qed.

Lemma slider_moves_witness :
  let today := JS.days_from_civil 2024 10 5 in
  let morning := mkScoreData (JS.wall 2024 10 5 0 30 0) 1 10 in
  let noon := mkScoreData (JS.wall 2024 10 5 3 0 0) 2 (-5) in
  let loaded := TotalReactive.step JS.jst (TotalReactive.mount JS.jst today)
                  (TotalReactive.FetchSettled (okFetch [morning; noon])) in
  inStep JS.jst loaded
  /\ TotalReactive.filteredData loaded = [morning; noon]
  /\ TotalReactive.filteredData
       (TotalReactive.step JS.jst loaded (TotalReactive.ChangeStartTime 10))
     = [noon].
Proof.
  cbv zeta. split; [reflexivity|]. split; [reflexivity|].
  destruct (slider_moves JS.jst
              (TotalPage.initial (JS.days_from_civil 2024 10 5))
              (TotalReactive.step JS.jst
                 (TotalReactive.mount JS.jst (JS.days_from_civil 2024 10 5))
                 (TotalReactive.FetchSettled
                    (okFetch [mkScoreData (JS.wall 2024 10 5 0 30 0) 1 10;
                              mkScoreData (JS.wall 2024 10 5 3 0 0) 2 (-5)])))
              (JS.days_from_civil 2024 10 5) (JS.days_from_civil 2024 10 5) 10
              eq_refl eq_refl eq_refl) as [_ Hr].
  rewrite Hr. reflexivity.
Defined.

(** ** The totals of the reactive page in Japan *)



